(** * Daft execution steps: partition tasks, their builder and the
      instruction metadata rules

    A shallow embedding of [daft/execution/execution_step.py].

    Python integers are unbounded and are modelled by [Z]; the task counter
    [ID_GEN] only ever counts up from zero and is modelled by [N].  Where an
    integer passes into numpy ([Slice._take]) the [int64] bounds are
    written out.  The
    [int | float] resource quantities [num_cpus] and [num_gpus] are modelled
    by [Q]: only comparisons, [max] and truthiness are applied to them, and
    these are exact on finite floats.  [None] is [None] of [option].

    Python lists that are shared between objects and mutated in place (the
    [instructions] list of a builder) live in an explicit object store;
    everything else is passed by value.  Exceptions are explicit results,
    and a raising call keeps the store mutations it made before raising. *)

From Stdlib Require Import ZArith QArith List String Lia DecimalString DecimalN.
From stdpp Require Import base option list gmap strings.

Local Open Scope Z_scope.

(** ** Exceptions *)

Inductive exn : Type :=
| AssertionError
| ValueError
| IndexError
| OutOfInt64.

Inductive outcome (A : Type) : Type :=
| Ok (a : A)
| Raise (e : exn).

Arguments Ok {A} a.
Arguments Raise {A} e.

(** [[x] = xs]: unpacking a list into exactly one name raises [ValueError]
    on any other length. *)
Definition unpack1 {A} (xs : list A) : outcome A :=
  match xs with
  | [x] => Ok x
  | _ => Raise ValueError
  end.

(** ** Partition metadata known ahead of time *)

Record PartialPartitionMetadata : Type := {
  num_rows : option Z;
  size_bytes : option Z;
}.

(** Python's [sum] over a list of integers. *)
Definition sum (xs : list Z) : Z := fold_left Z.add xs 0.

(** [sum(xs) if all(_ is not None for _ in xs) else None] *)
Definition sum_if_all_known (xs : list (option Z)) : option Z :=
  if forallb (fun x => bool_decide (x ≠ None)) xs
  then Some (sum (omap id xs))
  else None.

(** ** Instructions

    Each instruction class is a module holding its frozen dataclass and its
    methods.  Fields that hold expressions, map operators or logical plans
    are external collaborators that no metadata rule reads; of the plans only
    the row limit of a file scan is kept. *)

Module logical_plan.
Record TabularFilesScan : Type := { _limit_rows : option Z }.
End logical_plan.

Module ReadFile.
Record t : Type := {
    partition_id : Z;
    index : option Z;
    logplan : logical_plan.TabularFilesScan;
    file_rows : option Z;
  }.

Definition run_partial_metadata (self : t)
      (input_metadatas : list PartialPartitionMetadata)
    : outcome (list PartialPartitionMetadata) :=
    if bool_decide (length input_metadatas = 1%nat) then
      let num_rows :=
        match file_rows self, logical_plan._limit_rows (logplan self) with
        | Some n, Some lim => Some (Z.min n lim)
        | n, _ => n
        end in
      Ok [ {| num_rows := num_rows; size_bytes := None |} ]
    else Raise AssertionError.
End ReadFile.

Module WriteFile.
Record t : Type := { partition_id : Z }.

Definition run_partial_metadata (self : t)
      (input_metadatas : list PartialPartitionMetadata)
    : outcome (list PartialPartitionMetadata) :=
    if bool_decide (length input_metadatas = 1%nat)
    then Ok [ {| num_rows := Some 1; size_bytes := None |} ]
    else Raise AssertionError.
End WriteFile.

(** The rule shared by [Filter], [MapPartition], [Sample] and [Aggregate]:
    nothing can be derived, one entry per input entry. *)
Definition cannot_derive (input_metadatas : list PartialPartitionMetadata)
  : list PartialPartitionMetadata :=
  map (fun _ => {| num_rows := None; size_bytes := None |}) input_metadatas.

Module Project.
Definition run_partial_metadata
      (input_metadatas : list PartialPartitionMetadata)
    : list PartialPartitionMetadata :=
    map (fun input_meta =>
           {| num_rows := num_rows input_meta; size_bytes := None |})
        input_metadatas.
End Project.

Module LocalCount.
Definition run_partial_metadata
      (input_metadatas : list PartialPartitionMetadata)
    : list PartialPartitionMetadata :=
    map (fun _ => {| num_rows := Some 1; size_bytes := Some 104 |})
        input_metadatas.
End LocalCount.

Module LocalLimit.
Record t : Type := { limit : Z }.

Definition run_partial_metadata (self : t)
      (input_metadatas : list PartialPartitionMetadata)
    : list PartialPartitionMetadata :=
    map (fun input_meta =>
           {| num_rows :=
                match num_rows input_meta with
                | Some r => Some (Z.min (limit self) r)
                | None => None
                end;
              size_bytes := None |})
        input_metadatas.
End LocalLimit.

Module Sample.
Record t : Type := { num_samples : Z }.
End Sample.

Module Join.
Definition run_partial_metadata
      (input_metadatas : list PartialPartitionMetadata)
    : list PartialPartitionMetadata :=
    [ {| num_rows := None; size_bytes := None |} ].
End Join.

Module ReduceMerge.
Definition run_partial_metadata
      (input_metadatas : list PartialPartitionMetadata)
    : list PartialPartitionMetadata :=
    let input_rows := map num_rows input_metadatas in
    let input_sizes := map size_bytes input_metadatas in
    [ {| num_rows := sum_if_all_known input_rows;
         size_bytes := sum_if_all_known input_sizes |} ].
End ReduceMerge.

Module ReduceMergeAndSort.
Definition run_partial_metadata
      (input_metadatas : list PartialPartitionMetadata)
    : list PartialPartitionMetadata :=
    let input_rows := map num_rows input_metadatas in
    let input_sizes := map size_bytes input_metadatas in
    [ {| num_rows := sum_if_all_known input_rows;
         size_bytes := sum_if_all_known input_sizes |} ].
End ReduceMergeAndSort.

Module ReduceToQuantiles.
Record t : Type := { num_quantiles : Z }.

Definition run_partial_metadata (self : t)
      (input_metadatas : list PartialPartitionMetadata)
    : list PartialPartitionMetadata :=
    [ {| num_rows := Some (num_quantiles self); size_bytes := None |} ].
End ReduceToQuantiles.

Module FanoutInstruction.
Record t : Type := { num_outputs : Z }.

(** [for _ in range(self.num_outputs)]: a negative count gives no entry. *)
Definition run_partial_metadata (self : t)
      (input_metadatas : list PartialPartitionMetadata)
    : list PartialPartitionMetadata :=
    repeat {| num_rows := None; size_bytes := None |}
           (Z.to_nat (num_outputs self)).
End FanoutInstruction.

(** ** Tables, as far as [Slice] needs them *)

Module Table.
Section Table.
Context {Row : Type}.

(** Modelled from the spec: the [Table] class (module [daft.table]) is not
    part of the sources at hand.  A table is its sequence of rows. *)
Definition t : Type := list Row.

(** Modelled from the spec: [len(t)], the row count of a table. *)
Definition len (self : t) : Z := Z.of_nat (length self).

(** Modelled from the spec: [t.take(indices)], the table of the rows at the
    given indices, in the order of the indices.  [indices] stands for an
    i64 series: the only caller builds it with [arange], which lets no
    bound outside [int64] through.  An index outside the table is an
    error. *)
Definition take (self : t) (indices : list Z) : outcome t :=
  match
    mapM (fun i => if bool_decide (0 <= i) then self !! Z.to_nat i
                   else None) indices
  with
  | Some rows => Ok rows
  | None => Raise IndexError
  end.
End Table.
Arguments t Row : clear implicits.
End Table.

(** The bounds of numpy's [int64], the type of a table's index series. *)
Definition int64_min : Z := -9223372036854775808.
Definition int64_max : Z := 9223372036854775807.

(** [Series.from_numpy(np.arange(start, stop))] as [Slice._take] builds its
    index series.  With both bounds in [int64] numpy gives the [int64] array
    [start, start+1, ..., stop-1], empty when [stop <= start].  With a
    bound outside [int64] no table comes out of the call that follows:
    depending on the magnitude [np.arange] raises, or it gives an array
    that is not [int64], on which [take] fails.  All of these are recorded
    as the one failure [OutOfInt64].  [stop] is at most the row count of a
    table here, so only its lower bound is at stake. *)
Definition arange (start stop : Z) : outcome (list Z) :=
  if bool_decide (int64_min <= start <= int64_max /\ int64_min <= stop)
  then Ok (seqZ start (stop - start))
  else Raise OutOfInt64.

Module Slice.
Record t : Type := {
    start : Z;  (* inclusive *)
    end_ : Z;   (* exclusive *)
  }.

Section Run.
Context {Row : Type}.

Definition _take (self : t) (inputs : list (Table.t Row))
      : outcome (list (Table.t Row)) :=
      match unpack1 inputs with
      | Raise e => Raise e
      | Ok input =>
          if bool_decide (start self >= 0) then
            let end_ := Z.min (end_ self) (Table.len input) in
            match arange (start self) end_ with
            | Raise e => Raise e
            | Ok indices_series =>
                match Table.take input indices_series with
                | Ok out => Ok [out]
                | Raise e => Raise e
                end
            end
          else Raise AssertionError
      end.

Definition run (self : t) (inputs : list (Table.t Row))
      : outcome (list (Table.t Row)) :=
      _take self inputs.
End Run.

Definition run_partial_metadata (self : t)
      (input_metadatas : list PartialPartitionMetadata)
    : outcome (list PartialPartitionMetadata) :=
    match unpack1 input_metadatas with
    | Raise e => Raise e
    | Ok input_meta =>
        let definite_end :=
          match num_rows input_meta with
          | Some r => Some (Z.min (end_ self) r)
          | None => None
          end in
        if bool_decide (start self >= 0) then
          let num_rows :=
            match definite_end with
            | Some de => Some (Z.max (de - start self) 0)
            | None => None
            end in
          Ok [ {| num_rows := num_rows; size_bytes := None |} ]
        else Raise AssertionError
    end.
End Slice.

(** ** The closed family of instructions *)

Module Instruction.
Inductive t : Type :=
  | ReadFile (i : ReadFile.t)
  | WriteFile (i : WriteFile.t)
  | Filter
  | Project
  | LocalCount
  | LocalLimit (i : LocalLimit.t)
  | Slice (i : Slice.t)
  | MapPartition
  | Sample (i : Sample.t)
  | Aggregate
  | Join
  | ReduceMerge
  | ReduceMergeAndSort
  | ReduceToQuantiles (i : ReduceToQuantiles.t)
  | FanoutRandom (i : FanoutInstruction.t) (seed : Z)
  | FanoutHash (i : FanoutInstruction.t)
  | FanoutRange (i : FanoutInstruction.t).

  (** Dynamic dispatch of [instruction.run_partial_metadata(...)]. *)
Definition run_partial_metadata (self : t)
      (input_metadatas : list PartialPartitionMetadata)
    : outcome (list PartialPartitionMetadata) :=
    match self with
    | ReadFile i => ReadFile.run_partial_metadata i input_metadatas
    | WriteFile i => WriteFile.run_partial_metadata i input_metadatas
    | Filter | MapPartition | Sample _ | Aggregate =>
        Ok (cannot_derive input_metadatas)
    | Project => Ok (Project.run_partial_metadata input_metadatas)
    | LocalCount => Ok (LocalCount.run_partial_metadata input_metadatas)
    | LocalLimit i => Ok (LocalLimit.run_partial_metadata i input_metadatas)
    | Slice i => Slice.run_partial_metadata i input_metadatas
    | Join => Ok (Join.run_partial_metadata input_metadatas)
    | ReduceMerge => Ok (ReduceMerge.run_partial_metadata input_metadatas)
    | ReduceMergeAndSort =>
        Ok (ReduceMergeAndSort.run_partial_metadata input_metadatas)
    | ReduceToQuantiles i =>
        Ok (ReduceToQuantiles.run_partial_metadata i input_metadatas)
    | FanoutRandom i _ | FanoutHash i | FanoutRange i =>
        Ok (FanoutInstruction.run_partial_metadata i input_metadatas)
    end.
End Instruction.

(** ** Resource requests *)

Module ResourceRequest.
(** Modelled from the spec: the [ResourceRequest] class (module
    [daft.resource_request]) is not part of the sources at hand.  It has
    three optional fields. *)
Record t : Type := {
  num_cpus : option Q;
  num_gpus : option Q;
  memory_bytes : option Z;
}.

(** Modelled from the spec: [ResourceRequest()], the request with every
    field absent. *)
Definition empty : t :=
  {| num_cpus := None; num_gpus := None; memory_bytes := None |}.

(** Python's [max(x, y)]: [y] when [y > x], else [x]. *)
Definition Qmax (x y : Q) : Q := if Qle_bool y x then x else y.

(** Modelled from the spec: the maximum of two optional quantities, where
    absent is the identity. *)
Definition max_field {A} (max : A -> A -> A) (a b : option A) : option A :=
  match a, b with
  | None, _ => b
  | _, None => a
  | Some x, Some y => Some (max x y)
  end.

(** Modelled from the spec: [max_of(a, b)], the per-field maximum of two
    requests, where absent is the identity. *)
Definition max_of (a b : t) : t :=
  {| num_cpus := max_field Qmax (num_cpus a) (num_cpus b);
     num_gpus := max_field Qmax (num_gpus a) (num_gpus b);
     memory_bytes := max_field Z.max (memory_bytes a) (memory_bytes b) |}.

(** Modelled from the spec: [ResourceRequest.max_resources(requests)], the
    per-field maximum of a list of requests. *)
Definition max_resources (resource_requests : list t) : t :=
  fold_left max_of resource_requests empty.
End ResourceRequest.

(** [x or 1] on an optional quantity: [None] and zero are falsy. *)
Definition or_1 (x : option Q) : option Q :=
  match x with
  | Some q => if Qeq_bool q 0 then Some 1%Q else Some q
  | None => Some 1%Q
  end.

(** [x or None] on an optional integer. *)
Definition or_None (x : option Z) : option Z :=
  match x with
  | Some n => if n =? 0 then None else Some n
  | None => None
  end.

(** ** The object store and the task counter

    [ID_GEN = itertools.count()] is the next identifier to hand out.  The
    store holds the instruction lists, which are shared by reference. *)

Definition loc : Type := nat.

Record World : Type := {
  ID_GEN : N;
  store : gmap loc (list Instruction.t);
}.

(** A computation may mutate the world and may raise; the mutations made
    before raising stay. *)
Definition M (A : Type) : Type := World -> outcome A * World.

#[export] Instance M_ret : MRet M := fun A (a : A) w => (Ok a, w).

#[export] Instance M_bind : MBind M := fun A B (k : A -> M B) (m : M A) w =>
  match m w with
  | (Ok a, w') => k a w'
  | (Raise e, w') => (Raise e, w')
  end.

Definition lift {A} (r : outcome A) : M A := fun w => (r, w).

(** [next(ID_GEN)] *)
Definition next_ID_GEN : M N :=
  fun w => (Ok (ID_GEN w), {| ID_GEN := N.succ (ID_GEN w); store := store w |}).

(** [list()]: a new empty list object. *)
Definition new_list : M loc :=
  fun w =>
    let l := fresh (dom (store w)) in
    (Ok l, {| ID_GEN := ID_GEN w; store := <[l := []]> (store w) |}).

(** [l.append(x)], in place. *)
Definition list_append (l : loc) (x : Instruction.t) : M unit :=
  fun w =>
    (Ok tt,
     {| ID_GEN := ID_GEN w;
        store := alter (fun xs => xs ++ [x]) l (store w) |}).

(** The current content of a list object. *)
Definition deref (w : World) (l : loc) : list Instruction.t :=
  default [] (store w !! l).

(** [str(n)] for a non-negative integer. *)
Definition str (n : N) : string := NilEmpty.string_of_uint (N.to_uint n).

(** ** Partition tasks *)

Module PartitionTask.
Record t (PartitionT : Type) : Type := {
  inputs : list PartitionT;
  instructions : loc;
  resource_request : ResourceRequest.t;
  num_results : Z;
  _id : N;
}.
Arguments inputs {PartitionT} _.
Arguments instructions {PartitionT} _.
Arguments resource_request {PartitionT} _.
Arguments num_results {PartitionT} _.
Arguments _id {PartitionT} _.

(** [f"{self.__class__.__name__}_{self._id}"] *)
Definition id {PartitionT} (class_name : string) (self : t PartitionT)
  : string :=
  (class_name ++ "_" ++ str (_id self))%string.
End PartitionTask.

Module SingleOutputPartitionTask.
Section Single.
Context {PartitionT MaterializedResult : Type}.

Record t : Type := {
  base : PartitionTask.t PartitionT;
  _result : option MaterializedResult;
}.

Definition id (self : t) : string :=
  PartitionTask.id "SingleOutputPartitionTask" (base self).

(** The call's outcome and the task after the call. *)
Definition set_result (self : t) (result : list MaterializedResult)
  : outcome unit * t :=
  match _result self with
  | None =>
      match unpack1 result with
      | Ok partition =>
          (Ok tt, {| base := base self; _result := Some partition |})
      | Raise e => (Raise e, self)
      end
  | Some _ => (Raise AssertionError, self)
  end.

Definition done (self : t) : bool :=
  match _result self with Some _ => true | None => false end.
End Single.
Arguments t : clear implicits.
End SingleOutputPartitionTask.

Module MultiOutputPartitionTask.
Section Multi.
Context {PartitionT MaterializedResult : Type}.

Record t : Type := {
  base : PartitionTask.t PartitionT;
  _results : option (list MaterializedResult);
}.

Definition id (self : t) : string :=
  PartitionTask.id "MultiOutputPartitionTask" (base self).

(** The call's outcome and the task after the call. *)
Definition set_result (self : t) (result : list MaterializedResult)
  : outcome unit * t :=
  match _results self with
  | None => (Ok tt, {| base := base self; _results := Some result |})
  | Some _ => (Raise AssertionError, self)
  end.

Definition done (self : t) : bool :=
  match _results self with Some _ => true | None => false end.
End Multi.
Arguments t : clear implicits.
End MultiOutputPartitionTask.

(** ** The builder

    A defaulted [resource_request] argument is [ResourceRequest()], which
    callers here pass as [ResourceRequest.empty]. *)

Module PartitionTaskBuilder.
Section Builder.
Context {PartitionT MaterializedResult : Type}.

Record t : Type := {
  inputs : list PartitionT;
  partial_metadatas : list PartialPartitionMetadata;
  resource_request : ResourceRequest.t;
  instructions : loc;
}.

Definition __init__ (inputs : list PartitionT)
    (partial_metadatas : option (list PartialPartitionMetadata))
    (resource_request : ResourceRequest.t) : M t :=
  let partial_metadatas :=
    match partial_metadatas with
    | Some pms => pms
    | None => map (fun _ => {| num_rows := None; size_bytes := None |}) inputs
    end in
  instructions ← new_list;
  mret {| inputs := inputs;
          partial_metadatas := partial_metadatas;
          resource_request := resource_request;
          instructions := instructions |}.

(** Returns [self], here the builder after the call.  When the metadata
    rule raises, the instruction has already been appended. *)
Definition add_instruction (self : t) (instruction : Instruction.t)
    (resource_request' : ResourceRequest.t) : M t :=
  _ ← list_append (instructions self) instruction;
  pms ← lift (Instruction.run_partial_metadata instruction
                (partial_metadatas self));
  mret {| inputs := inputs self;
          partial_metadatas := pms;
          resource_request :=
            ResourceRequest.max_resources
              [resource_request self; resource_request'];
          instructions := instructions self |}.

Definition finalize_partition_task_single_output (self : t)
  : M (SingleOutputPartitionTask.t PartitionT MaterializedResult) :=
  let resource_request_final_cpu :=
    {| ResourceRequest.num_cpus :=
         or_1 (ResourceRequest.num_cpus (resource_request self));
       ResourceRequest.num_gpus :=
         ResourceRequest.num_gpus (resource_request self);
       ResourceRequest.memory_bytes :=
         or_None (ResourceRequest.memory_bytes (resource_request self)) |} in
  _id ← next_ID_GEN;
  mret {| SingleOutputPartitionTask.base :=
            {| PartitionTask.inputs := inputs self;
               PartitionTask.instructions := instructions self;
               PartitionTask.num_results := 1;
               PartitionTask.resource_request := resource_request_final_cpu;
               PartitionTask._id := _id |};
          SingleOutputPartitionTask._result := None |}.

Definition finalize_partition_task_multi_output (self : t) (num_results : Z)
  : M (MultiOutputPartitionTask.t PartitionT MaterializedResult) :=
  let resource_request_final_cpu :=
    {| ResourceRequest.num_cpus :=
         or_1 (ResourceRequest.num_cpus (resource_request self));
       ResourceRequest.num_gpus :=
         ResourceRequest.num_gpus (resource_request self);
       ResourceRequest.memory_bytes :=
         ResourceRequest.memory_bytes (resource_request self) |} in
  _id ← next_ID_GEN;
  mret {| MultiOutputPartitionTask.base :=
            {| PartitionTask.inputs := inputs self;
               PartitionTask.instructions := instructions self;
               PartitionTask.num_results := num_results;
               PartitionTask.resource_request := resource_request_final_cpu;
               PartitionTask._id := _id |};
          MultiOutputPartitionTask._results := None |}.
End Builder.
Arguments t : clear implicits.
End PartitionTaskBuilder.

(** ** A process: the tasks created so far

    One process has one [World] (one [ID_GEN]).  A step is one call of the
    API of the module; the tasks that the finalizers returned are recorded
    in creation order. *)

Module Process.
Section Process.
Context {PartitionT MaterializedResult : Type}.

Inductive Task : Type :=
| Single (task : SingleOutputPartitionTask.t PartitionT MaterializedResult)
| Multi (task : MultiOutputPartitionTask.t PartitionT MaterializedResult).

Definition _id (task : Task) : N :=
  match task with
  | Single s => PartitionTask._id (SingleOutputPartitionTask.base s)
  | Multi m => PartitionTask._id (MultiOutputPartitionTask.base m)
  end.

Definition id (task : Task) : string :=
  match task with
  | Single s => SingleOutputPartitionTask.id s
  | Multi m => MultiOutputPartitionTask.id m
  end.

Record t : Type := {
  world : World;
  tasks : list Task;
}.

(** A process starts with a fresh counter, an empty store and no task. *)
Definition start : t :=
  {| world := {| ID_GEN := 0%N; store := ∅ |}; tasks := [] |}.

Inductive step (p : t) : t -> Prop :=
| step_init inputs partial_metadatas resource_request r w' :
    PartitionTaskBuilder.__init__ (PartitionT := PartitionT)
      inputs partial_metadatas resource_request (world p) = (r, w') ->
    step p {| world := w'; tasks := tasks p |}
| step_add_instruction (b : PartitionTaskBuilder.t PartitionT)
    instruction resource_request r w' :
    PartitionTaskBuilder.add_instruction b instruction resource_request
      (world p) = (r, w') ->
    step p {| world := w'; tasks := tasks p |}
| step_finalize_single (b : PartitionTaskBuilder.t PartitionT) task w' :
    PartitionTaskBuilder.finalize_partition_task_single_output b (world p)
    = (Ok task, w') ->
    step p {| world := w'; tasks := tasks p ++ [Single task] |}
| step_finalize_multi (b : PartitionTaskBuilder.t PartitionT) num_results
    task w' :
    PartitionTaskBuilder.finalize_partition_task_multi_output b num_results
      (world p) = (Ok task, w') ->
    step p {| world := w'; tasks := tasks p ++ [Multi task] |}
| step_set_result_single k task result r task' :
    tasks p !! k = Some (Single task) ->
    SingleOutputPartitionTask.set_result task result = (r, task') ->
    step p {| world := world p; tasks := <[k := Single task']> (tasks p) |}
| step_set_result_multi k task result r task' :
    tasks p !! k = Some (Multi task) ->
    MultiOutputPartitionTask.set_result task result = (r, task') ->
    step p {| world := world p; tasks := <[k := Multi task']> (tasks p) |}.

(** The processes that some sequence of calls reaches. *)
Definition reachable (p : t) : Prop := rtc step start p.
End Process.
Arguments Task : clear implicits.
Arguments t : clear implicits.
End Process.

(** ** Calls in sequence and what the specification expects of them *)

(** [builder.add_instruction(i1, r1).add_instruction(i2, r2)...]: the calls
    are made in order on the builder each call returns; the first call that
    raises ends the run. *)
Fixpoint add_instructions {PartitionT}
    (self : PartitionTaskBuilder.t PartitionT)
    (calls : list (Instruction.t * ResourceRequest.t))
  : M (PartitionTaskBuilder.t PartitionT) :=
  match calls with
  | [] => mret self
  | (instruction, resource_request) :: rest =>
      self' ← PartitionTaskBuilder.add_instruction self instruction
                resource_request;
      add_instructions self' rest
  end.

(** [m] is the maximum of the quantities present in [xs]: absent when all of
    them are absent, else one of them that is at least every other one. *)
Definition is_max_of_present {A} (le : A -> A -> Prop)
    (xs : list (option A)) (m : option A) : Prop :=
  match m with
  | None => forall x, x ∈ xs -> x = None
  | Some v => Some v ∈ xs /\ forall x, Some x ∈ xs -> le x v
  end.

(** [agg] is the field-wise maximum of [requests], absent fields being the
    identity. *)
Definition is_fieldwise_max (requests : list ResourceRequest.t)
    (agg : ResourceRequest.t) : Prop :=
  is_max_of_present Qle (map ResourceRequest.num_cpus requests)
    (ResourceRequest.num_cpus agg)
  /\ is_max_of_present Qle (map ResourceRequest.num_gpus requests)
       (ResourceRequest.num_gpus agg)
  /\ is_max_of_present Z.le (map ResourceRequest.memory_bytes requests)
       (ResourceRequest.memory_bytes agg).

(** The request that the specification's resource-aggregation rule gives
    the finalized task: the aggregate, with [num_cpus] replaced by 1 when
    absent. *)
Definition expected_resource_request (agg : ResourceRequest.t)
  : ResourceRequest.t :=
  {| ResourceRequest.num_cpus :=
       match ResourceRequest.num_cpus agg with
       | None => Some 1%Q
       | Some c => Some c
       end;
     ResourceRequest.num_gpus := ResourceRequest.num_gpus agg;
     ResourceRequest.memory_bytes := ResourceRequest.memory_bytes agg |}.

(** [t] is [x] with 1 standing in for an absent or zero quantity. *)
Definition absent_or_zero_as_1 (x t : option Q) : Prop :=
  (x = None -> t = Some 1%Q)
  /\ (forall c, x = Some c -> (c == 0)%Q -> t = Some 1%Q)
  /\ (forall c, x = Some c -> ~ (c == 0)%Q -> t = Some c).

(** [t] is [x] with zero turned into absent. *)
Definition zero_as_absent (x t : option Z) : Prop :=
  (x = Some 0 -> t = None) /\ (x <> Some 0 -> t = x).

(** ** Scenarios *)

(** A builder over one input partition, given one instruction with the
    request [request], then finalized as a single-output task. *)
Definition single_output_scenario (request : ResourceRequest.t)
  : outcome (SingleOutputPartitionTask.t string string) * World :=
  (b ← PartitionTaskBuilder.__init__ ["p0"%string] None
         ResourceRequest.empty;
   b ← PartitionTaskBuilder.add_instruction b
         (Instruction.LocalLimit {| LocalLimit.limit := 10 |}) request;
   PartitionTaskBuilder.finalize_partition_task_single_output b)
    (Process.world (Process.start (PartitionT := string)
                                  (MaterializedResult := string))).

(** A builder with [FanoutRandom(num_outputs=4, seed=7)], finalized as a
    multi-output task with four results. *)
Definition fanout_scenario
  : outcome (MultiOutputPartitionTask.t string string) * World :=
  (b ← PartitionTaskBuilder.__init__ ["p0"%string] None
         ResourceRequest.empty;
   b ← PartitionTaskBuilder.add_instruction b
         (Instruction.FanoutRandom {| FanoutInstruction.num_outputs := 4 |} 7)
         ResourceRequest.empty;
   PartitionTaskBuilder.finalize_partition_task_multi_output b 4)
    (Process.world (Process.start (PartitionT := string)
                                  (MaterializedResult := string))).

(** A builder is finalized, and one more instruction is added to it
    afterwards.  The result is the frozen task's instruction list as read
    right after the finalize and as read after the later call. *)
Definition add_after_finalize {PartitionT}
    (b : PartitionTaskBuilder.t PartitionT) (instruction : Instruction.t)
    (request : ResourceRequest.t) (w : World)
  : list Instruction.t * list Instruction.t :=
  match
    PartitionTaskBuilder.finalize_partition_task_single_output
      (MaterializedResult := unit) b w
  with
  | (Ok task, w1) =>
      let frozen :=
        PartitionTask.instructions (SingleOutputPartitionTask.base task) in
      let w2 :=
        snd (PartitionTaskBuilder.add_instruction b instruction request w1) in
      (deref w1 frozen, deref w2 frozen)
  | (Raise _, _) => ([], [])
  end.

(** A builder over one partition of 100 rows, as [__init__] leaves it in a
    fresh process, and two calls asking for one GPU and for 2 GB. *)
Definition gpu_and_memory_builder : PartitionTaskBuilder.t string :=
  {| PartitionTaskBuilder.inputs := ["p0"%string];
     PartitionTaskBuilder.partial_metadatas :=
       [ {| num_rows := Some 100; size_bytes := None |} ];
     PartitionTaskBuilder.resource_request := ResourceRequest.empty;
     PartitionTaskBuilder.instructions := 0%nat |}.

Definition gpu_and_memory_world : World :=
  {| ID_GEN := 0%N; store := {[ 0%nat := [] ]} |}.

Definition gpu_and_memory_calls : list (Instruction.t * ResourceRequest.t) :=
  [ (Instruction.LocalLimit {| LocalLimit.limit := 10 |},
     {| ResourceRequest.num_cpus := None;
        ResourceRequest.num_gpus := Some 1%Q;
        ResourceRequest.memory_bytes := None |});
    (Instruction.Project,
     {| ResourceRequest.num_cpus := None;
        ResourceRequest.num_gpus := None;
        ResourceRequest.memory_bytes := Some 2000000000 |}) ].

(** The k-th task created has identifier k, and the counter stands at the
    number of tasks created. *)
Definition numbered {PartitionT MaterializedResult}
    (p : Process.t PartitionT MaterializedResult) : Prop :=
  ID_GEN (Process.world p) = N.of_nat (length (Process.tasks p))
  /\ forall k task, Process.tasks p !! k = Some task ->
       Process._id task = N.of_nat k.

(** The process after one more call of a finalizer. *)
Definition after_finalize_single {PartitionT MaterializedResult}
    (p : Process.t PartitionT MaterializedResult)
    (b : PartitionTaskBuilder.t PartitionT)
  : Process.t PartitionT MaterializedResult :=
  match
    PartitionTaskBuilder.finalize_partition_task_single_output b
      (Process.world p)
  with
  | (Ok task, w') =>
      {| Process.world := w';
         Process.tasks := Process.tasks p ++ [Process.Single task] |}
  | (Raise _, _) => p
  end.

Definition after_finalize_multi {PartitionT MaterializedResult}
    (p : Process.t PartitionT MaterializedResult)
    (b : PartitionTaskBuilder.t PartitionT) (num_results : Z)
  : Process.t PartitionT MaterializedResult :=
  match
    PartitionTaskBuilder.finalize_partition_task_multi_output b num_results
      (Process.world p)
  with
  | (Ok task, w') =>
      {| Process.world := w';
         Process.tasks := Process.tasks p ++ [Process.Multi task] |}
  | (Raise _, _) => p
  end.

(** A process in which one builder was finalized twice, first as a
    single-output and then as a multi-output task. *)
Definition two_tasks_process : Process.t string string :=
  after_finalize_multi
    (after_finalize_single Process.start gpu_and_memory_builder)
    gpu_and_memory_builder 4.

(** ** The result protocol and the read accessors of the tasks *)

Module MaterializedResult.
(** The protocol [MaterializedResult[PartitionT]]: what a runner's result
    object answers.  The table and metadata classes are external and stay
    abstract. *)
Class Protocol (MaterializedResult PartitionT TableT MetadataT : Type) :=
  { partition : MaterializedResult -> PartitionT;
    vpartition : MaterializedResult -> TableT;
    metadata : MaterializedResult -> MetadataT }.
End MaterializedResult.

(** [xs[index]] on a Python list: a negative index counts from the end, and
    an index outside the list raises [IndexError]. *)
Definition getitem {A} (xs : list A) (index : Z) : outcome A :=
  let i := if index <? 0 then index + Z.of_nat (length xs) else index in
  if bool_decide (0 <= i < Z.of_nat (length xs)) then
    match xs !! Z.to_nat i with
    | Some x => Ok x
    | None => Raise IndexError
    end
  else Raise IndexError.

Module SingleOutputPartitionTaskReads.
Section Reads.
Context {PartitionT MaterializedResult TableT MetadataT : Type}.
Context `{!MaterializedResult.Protocol MaterializedResult PartitionT
            TableT MetadataT}.
Implicit Types self : SingleOutputPartitionTask.t PartitionT MaterializedResult.

(** The results whose [cancel()] the call forwards to, in order. *)
Definition cancel self : list MaterializedResult :=
  match SingleOutputPartitionTask._result self with
  | Some r => [r]
  | None => []
  end.

Definition partition self : outcome PartitionT :=
  match SingleOutputPartitionTask._result self with
  | Some r => Ok (MaterializedResult.partition r)
  | None => Raise AssertionError
  end.

Definition partition_metadata self : outcome MetadataT :=
  match SingleOutputPartitionTask._result self with
  | Some r => Ok (MaterializedResult.metadata r)
  | None => Raise AssertionError
  end.

Definition vpartition self : outcome TableT :=
  match SingleOutputPartitionTask._result self with
  | Some r => Ok (MaterializedResult.vpartition r)
  | None => Raise AssertionError
  end.
End Reads.
End SingleOutputPartitionTaskReads.

Module MultiOutputPartitionTaskReads.
Section Reads.
Context {PartitionT MaterializedResult TableT MetadataT : Type}.
Context `{!MaterializedResult.Protocol MaterializedResult PartitionT
            TableT MetadataT}.
Implicit Types self : MultiOutputPartitionTask.t PartitionT MaterializedResult.

(** The results whose [cancel()] the call forwards to, in order. *)
Definition cancel self : list MaterializedResult :=
  match MultiOutputPartitionTask._results self with
  | Some results => results
  | None => []
  end.

Definition partitions self : outcome (list PartitionT) :=
  match MultiOutputPartitionTask._results self with
  | Some results => Ok (map MaterializedResult.partition results)
  | None => Raise AssertionError
  end.

Definition partition_metadatas self : outcome (list MetadataT) :=
  match MultiOutputPartitionTask._results self with
  | Some results => Ok (map MaterializedResult.metadata results)
  | None => Raise AssertionError
  end.

Definition vpartition self (index : Z) : outcome TableT :=
  match MultiOutputPartitionTask._results self with
  | Some results =>
      match getitem results index with
      | Ok r => Ok (MaterializedResult.vpartition r)
      | Raise e => Raise e
      end
  | None => Raise AssertionError
  end.
End Reads.
End MultiOutputPartitionTaskReads.

(** ** Running [Slice] twice *)


(** ** Views of a process's tasks *)

(** The fields a task gets when it is frozen. *)
Definition Task_base {PartitionT MaterializedResult}
    (task : Process.Task PartitionT MaterializedResult)
  : PartitionTask.t PartitionT :=
  match task with
  | Process.Single s => SingleOutputPartitionTask.base s
  | Process.Multi m => MultiOutputPartitionTask.base m
  end.

(** [task.done()], by dynamic dispatch. *)
Definition Task_done {PartitionT MaterializedResult}
    (task : Process.Task PartitionT MaterializedResult) : bool :=
  match task with
  | Process.Single s => SingleOutputPartitionTask.done s
  | Process.Multi m => MultiOutputPartitionTask.done m
  end.

(** A result object that is its own partition, table and metadata. *)
Definition plain_results
  : MaterializedResult.Protocol string string string string :=
  {| MaterializedResult.partition := fun r => r;
     MaterializedResult.vpartition := fun r => r;
     MaterializedResult.metadata := fun r => r |}.

(** Two pending tasks, as the finalizers leave them. *)
Definition pending_single_task : SingleOutputPartitionTask.t string string :=
  {| SingleOutputPartitionTask.base :=
       {| PartitionTask.inputs := ["p0"%string];
          PartitionTask.instructions := 0%nat;
          PartitionTask.resource_request := ResourceRequest.empty;
          PartitionTask.num_results := 1;
          PartitionTask._id := 0%N |};
     SingleOutputPartitionTask._result := None |}.

Definition pending_multi_task : MultiOutputPartitionTask.t string string :=
  {| MultiOutputPartitionTask.base :=
       {| PartitionTask.inputs := ["p0"%string];
          PartitionTask.instructions := 0%nat;
          PartitionTask.resource_request := ResourceRequest.empty;
          PartitionTask.num_results := 4;
          PartitionTask._id := 1%N |};
     MultiOutputPartitionTask._results := None |}.

(** * Properties *)

(** ** Metadata rules *)

Lemma fold_left_add_foldr (xs : list Z) (a : Z) :
  fold_left Z.add xs a = a + foldr Z.add 0 xs.
Proof.
  revert a; induction xs as [|x xs IH]; intros a; simpl; [lia|].
  rewrite IH. lia.
Qed.

Lemma sum_foldr (xs : list Z) : sum xs = foldr Z.add 0 xs.
Proof. unfold sum. by rewrite fold_left_add_foldr. Qed.

Lemma sum_if_all_known_Some (rs : list Z) :
  sum_if_all_known (map Some rs) = Some (foldr Z.add 0 rs).
Proof.
  unfold sum_if_all_known.
  assert (forallb (fun x : option Z => bool_decide (x ≠ None)) (map Some rs)
          = true) as ->.
  { induction rs as [|r rs IH]; [done|]. cbn [map forallb]. rewrite IH.
    by rewrite bool_decide_true. }
  f_equal. rewrite sum_foldr. f_equal.
  induction rs; simpl; [done|]. by f_equal.
Qed.

Lemma sum_if_all_known_None (xs : list (option Z)) :
  None ∈ xs -> sum_if_all_known xs = None.
Proof.
  intros Hin. unfold sum_if_all_known.
  assert (forallb (fun x : option Z => bool_decide (x ≠ None)) xs = false)
    as ->; [|done].
  induction xs as [|y ys IH]; [by apply elem_of_nil in Hin|].
  cbn [forallb]. apply elem_of_cons in Hin as [<-|Hin].
  - rewrite bool_decide_false; [done|]. by intros H.
  - rewrite (IH Hin). apply andb_false_r.
Qed.

(** C6.  [LocalLimit(k).run_partial_metadata] returns one entry per input
    entry; the entry for an input with known row count [r] has row count
    [min(k, r)], the entry for an input with unknown row count has unknown
    row count, and the byte size is always unknown. *)
Theorem C6_LocalLimit_run_partial_metadata
    (k : Z) (input_metadatas : list PartialPartitionMetadata) :
  length (LocalLimit.run_partial_metadata {| LocalLimit.limit := k |}
            input_metadatas)
  = length input_metadatas
  /\ forall (i : nat) (input_meta : PartialPartitionMetadata),
      input_metadatas !! i = Some input_meta ->
      exists out_meta,
        LocalLimit.run_partial_metadata {| LocalLimit.limit := k |}
          input_metadatas !! i = Some out_meta
        /\ size_bytes out_meta = None
        /\ (forall r, num_rows input_meta = Some r ->
              num_rows out_meta = Some (Z.min k r))
        /\ (num_rows input_meta = None -> num_rows out_meta = None).
Proof.
  unfold LocalLimit.run_partial_metadata. split.
  - apply length_map.
  - intros i input_meta Hi.
    eexists. split.
    + change (map ?f ?l) with (f <$> l). rewrite list_lookup_fmap, Hi. done.
    + cbn. split; [done|]. split.
      * by intros r ->.
      * by intros ->.
Qed.

(** C7.  [ReduceMerge] and [ReduceMergeAndSort] have the same metadata rule:
    exactly one entry comes out; its row count is the sum of the input row
    counts when all of them are known and unknown as soon as one is unknown,
    and likewise, independently, for the byte size. *)
Theorem C7_ReduceMerge_run_partial_metadata
    (input_metadatas : list PartialPartitionMetadata) :
  ReduceMergeAndSort.run_partial_metadata input_metadatas
  = ReduceMerge.run_partial_metadata input_metadatas
  /\ exists out_meta,
      ReduceMerge.run_partial_metadata input_metadatas = [out_meta]
      /\ (forall rows, map num_rows input_metadatas = map Some rows ->
            num_rows out_meta = Some (foldr Z.add 0 rows))
      /\ (None ∈ map num_rows input_metadatas -> num_rows out_meta = None)
      /\ (forall sizes, map size_bytes input_metadatas = map Some sizes ->
            size_bytes out_meta = Some (foldr Z.add 0 sizes))
      /\ (None ∈ map size_bytes input_metadatas ->
            size_bytes out_meta = None).
Proof.
  split; [done|].
  unfold ReduceMerge.run_partial_metadata. eexists. split; [done|]. cbn.
  repeat split.
  - intros rows ->. apply sum_if_all_known_Some.
  - apply sum_if_all_known_None.
  - intros sizes ->. apply sum_if_all_known_Some.
  - apply sum_if_all_known_None.
Qed.

(** C8.  On a single input entry, [ReadFile.run_partial_metadata] returns
    exactly one entry with unknown byte size.  Its row count is
    [min(file_rows, limit)] when the file's row count and the plan's row
    limit are both known, [file_rows] when only the file's row count is
    known, and unknown when the file's row count is unknown, whether or not
    the limit is known. *)
Theorem C8_ReadFile_run_partial_metadata
    (self : ReadFile.t) (input_meta : PartialPartitionMetadata) :
  exists out_meta,
    ReadFile.run_partial_metadata self [input_meta] = Ok [out_meta]
    /\ size_bytes out_meta = None
    /\ (forall n lim,
          ReadFile.file_rows self = Some n ->
          logical_plan._limit_rows (ReadFile.logplan self) = Some lim ->
          num_rows out_meta = Some (Z.min n lim))
    /\ (forall n,
          ReadFile.file_rows self = Some n ->
          logical_plan._limit_rows (ReadFile.logplan self) = None ->
          num_rows out_meta = Some n)
    /\ (ReadFile.file_rows self = None -> num_rows out_meta = None).
Proof.
  unfold ReadFile.run_partial_metadata. cbn.
  eexists. split; [done|]. cbn. split; [done|]. repeat split.
  - by intros n lim -> ->.
  - by intros n -> ->.
  - by intros ->.
Qed.

(** ** Slice *)

Lemma arange_Ok (start stop : Z) :
  int64_min <= start <= int64_max -> int64_min <= stop ->
  arange start stop = Ok (seqZ start (stop - start)).
Proof. intros Hstart Hstop. unfold arange. by rewrite bool_decide_true. Qed.


Lemma Table_take_seqZ {Row} (input : Table.t Row) (start stop : Z) :
  0 <= start -> stop <= Table.len input ->
  Table.take input (seqZ start (stop - start))
  = Ok (take (Z.to_nat (stop - start)) (drop (Z.to_nat start) input)).
Proof.
  intros Hstart Hstop. unfold Table.take, Table.len in *.
  erewrite mapM_Some_2; [done|].
  apply Forall2_same_length_lookup_2.
  - rewrite length_seqZ, length_take, length_drop. lia.
  - intros i x row [-> Hlt]%lookup_seqZ Hrow.
    rewrite bool_decide_true by lia.
    apply lookup_take_Some in Hrow as [Hrow _].
    rewrite lookup_drop in Hrow. rewrite <- Hrow. f_equal. lia.
Qed.

Lemma Slice_run_Ok {Row} (s e : Z) (t : Table.t Row) :
  0 <= s <= int64_max -> int64_min <= e ->
  Slice.run {| Slice.start := s; Slice.end_ := e |} [t]
  = Ok [ take (Z.to_nat (Z.min e (Table.len t) - s)) (drop (Z.to_nat s) t) ].
Proof.
  intros Hs He. unfold Slice.run, Slice._take. cbn.
  rewrite bool_decide_true by lia.
  rewrite arange_Ok; [|unfold int64_min; lia|unfold Table.len, int64_min in *; lia].
  by rewrite Table_take_seqZ by lia.
Qed.





(** ** Installing results *)

Lemma Single_set_result_Ok {PartitionT MaterializedResult}
    (self self' : SingleOutputPartitionTask.t PartitionT MaterializedResult)
    (result : list MaterializedResult) :
  SingleOutputPartitionTask.set_result self result = (Ok tt, self') <->
  SingleOutputPartitionTask._result self = None
  /\ exists partition,
      result = [partition]
      /\ self' = {| SingleOutputPartitionTask.base :=
                      SingleOutputPartitionTask.base self;
                    SingleOutputPartitionTask._result := Some partition |}.
Proof.
  unfold SingleOutputPartitionTask.set_result.
  destruct (SingleOutputPartitionTask._result self) as [old|] eqn:Hres.
  - split; [intros [=]|intros [[=] _]].
  - destruct result as [|partition [|second rest]]; cbn.
    + split; [intros [=]|intros (_ & p & [=] & _)].
    + split.
      * intros [= <-]. eauto.
      * intros (_ & p & [= <-] & ->). done.
    + split; [intros [=]|intros (_ & p & [=] & _)].
Qed.

Lemma Multi_set_result_Ok {PartitionT MaterializedResult}
    (self self' : MultiOutputPartitionTask.t PartitionT MaterializedResult)
    (result : list MaterializedResult) :
  MultiOutputPartitionTask.set_result self result = (Ok tt, self') <->
  MultiOutputPartitionTask._results self = None
  /\ self' = {| MultiOutputPartitionTask.base :=
                  MultiOutputPartitionTask.base self;
                MultiOutputPartitionTask._results := Some result |}.
Proof.
  unfold MultiOutputPartitionTask.set_result.
  destruct (MultiOutputPartitionTask._results self) as [old|] eqn:Hres.
  - split; [intros [=]|intros [[=] _]].
  - split; [intros [= <-]|intros [_ ->]]; done.
Qed.

(** C1, as the code has it.  On a single-output task [set_result(list)]
    succeeds exactly when no result is installed yet and the list has exactly
    one element.  On a multi-output task it succeeds exactly when no result is
    installed yet: the length of the list is not compared with
    [num_results].  In both cases, after a successful call [done()] is true
    and every further call fails with an assertion error and leaves the task
    as it is. *)
Theorem C1_set_result_succeeds_once {PartitionT MaterializedResult : Type} :
  (forall (self : SingleOutputPartitionTask.t PartitionT MaterializedResult)
          (result : list MaterializedResult),
      (fst (SingleOutputPartitionTask.set_result self result) = Ok tt <->
       SingleOutputPartitionTask._result self = None
       /\ length result = 1%nat)
      /\ (fst (SingleOutputPartitionTask.set_result self result) = Ok tt ->
          let self' := snd (SingleOutputPartitionTask.set_result self result)
          in SingleOutputPartitionTask.done self' = true
             /\ forall again,
                 SingleOutputPartitionTask.set_result self' again
                 = (Raise AssertionError, self')))
  /\ (forall (self : MultiOutputPartitionTask.t PartitionT MaterializedResult)
             (result : list MaterializedResult),
      (fst (MultiOutputPartitionTask.set_result self result) = Ok tt <->
       MultiOutputPartitionTask._results self = None)
      /\ (fst (MultiOutputPartitionTask.set_result self result) = Ok tt ->
          let self' := snd (MultiOutputPartitionTask.set_result self result)
          in MultiOutputPartitionTask.done self' = true
             /\ forall again,
                 MultiOutputPartitionTask.set_result self' again
                 = (Raise AssertionError, self'))).
Proof.
  split; intros self result.
  - unfold SingleOutputPartitionTask.set_result,
      SingleOutputPartitionTask.done.
    destruct (SingleOutputPartitionTask._result self) as [old|] eqn:Hres.
    + cbn. split; [split; [done|intros [[=] _]]|done].
    + destruct result as [|partition [|second rest]]; cbn.
      * split; [split; [done|intros [_ [=]]]|done].
      * split; [done|]. intros _. split; [done|]. intros again. done.
      * split; [split; [done|intros [_ [=]]]|done].
  - unfold MultiOutputPartitionTask.set_result,
      MultiOutputPartitionTask.done.
    destruct (MultiOutputPartitionTask._results self) as [old|] eqn:Hres.
    + cbn. split; [split; done|done].
    + cbn. split; [done|]. intros _. split; [done|]. intros again. done.
Qed.

(** C10.  On a pending single-output task, [set_result] with a list whose
    length is not 1 raises (the unpacking fails) and installs nothing: the
    task is unchanged, [done()] is still false, and a following [set_result]
    with a one-element list succeeds and installs that element. *)
Theorem C10_failed_set_result_leaves_task_pending
    {PartitionT MaterializedResult : Type}
    (self : SingleOutputPartitionTask.t PartitionT MaterializedResult)
    (result : list MaterializedResult) :
  SingleOutputPartitionTask._result self = None ->
  length result <> 1%nat ->
  exists self',
    SingleOutputPartitionTask.set_result self result
    = (Raise ValueError, self')
    /\ self' = self
    /\ SingleOutputPartitionTask.done self' = false
    /\ forall partition,
        exists self'',
          SingleOutputPartitionTask.set_result self' [partition]
          = (Ok tt, self'')
          /\ SingleOutputPartitionTask._result self'' = Some partition
          /\ SingleOutputPartitionTask.done self'' = true.
Proof.
  intros Hpending Hlen. exists self.
  unfold SingleOutputPartitionTask.set_result,
    SingleOutputPartitionTask.done.
  rewrite Hpending.
  destruct result as [|first [|second rest]]; cbn in *; try done.
  - repeat split; try done. intros partition. eexists. done.
  - repeat split; try done. intros partition. eexists. done.
Qed.

Lemma C10_witness :
  exists self',
    SingleOutputPartitionTask.set_result
      (PartitionT := string)
      {| SingleOutputPartitionTask.base :=
           {| PartitionTask.inputs := ["p0"%string];
              PartitionTask.instructions := 0%nat;
              PartitionTask.resource_request := ResourceRequest.empty;
              PartitionTask.num_results := 1;
              PartitionTask._id := 0%N |};
         SingleOutputPartitionTask._result := None |}
      ["r0"%string; "r1"%string]
    = (Raise ValueError, self')
    /\ SingleOutputPartitionTask.done self' = false
    /\ exists self'',
        SingleOutputPartitionTask.set_result self' ["r0"%string]
        = (Ok tt, self'')
        /\ SingleOutputPartitionTask.done self'' = true.
Proof.
  destruct (C10_failed_set_result_leaves_task_pending
              (PartitionT := string)
              {| SingleOutputPartitionTask.base :=
                   {| PartitionTask.inputs := ["p0"%string];
                      PartitionTask.instructions := 0%nat;
                      PartitionTask.resource_request := ResourceRequest.empty;
                      PartitionTask.num_results := 1;
                      PartitionTask._id := 0%N |};
                 SingleOutputPartitionTask._result := None |}
              ["r0"%string; "r1"%string] eq_refl ltac:(cbn; lia))
    as (self' & Hraise & _ & Hpending & Hnext).
  exists self'. split; [exact Hraise|]. split; [exact Hpending|].
  destruct (Hnext "r0"%string) as (self'' & Hok & _ & Hdone).
  exists self''. split; [exact Hok|exact Hdone].
Defined.

(** The claim C1 as stated fails on multi-output tasks: the task built with
    [num_results = 4] accepts a list of three results. *)
Lemma C1_multi_output_accepts_any_length :
  exists task w,
    fanout_scenario = (Ok task, w)
    /\ PartitionTask.num_results (MultiOutputPartitionTask.base task) = 4
    /\ MultiOutputPartitionTask._results task = None
    /\ length ["r0"; "r1"; "r2"]%string = 3%nat
    /\ fst (MultiOutputPartitionTask.set_result task ["r0"; "r1"; "r2"]%string)
       = Ok tt
    /\ MultiOutputPartitionTask.done
         (snd (MultiOutputPartitionTask.set_result task
                 ["r0"; "r1"; "r2"]%string)) = true.
Proof. do 2 eexists. vm_compute. repeat split. Qed.

(** ** Finalizing *)

(** C4.  Both finalizers succeed on every builder.  The multi-output task
    carries the builder's [memory_bytes] verbatim, zero included; the
    single-output task carries it too, except that zero becomes absent.
    [num_cpus] and [num_gpus] are the same in both tasks, and so are the
    inputs and the instruction list. *)
Theorem C4_finalizers_differ_only_on_zero_memory
    {PartitionT MaterializedResult : Type}
    (self : PartitionTaskBuilder.t PartitionT) (num_results : Z) (w : World) :
  exists single multi ws wm,
    PartitionTaskBuilder.finalize_partition_task_single_output
      (MaterializedResult := MaterializedResult) self w = (Ok single, ws)
    /\ PartitionTaskBuilder.finalize_partition_task_multi_output
         (MaterializedResult := MaterializedResult) self num_results w
       = (Ok multi, wm)
    /\ ResourceRequest.memory_bytes
         (PartitionTask.resource_request
            (MultiOutputPartitionTask.base multi))
       = ResourceRequest.memory_bytes
           (PartitionTaskBuilder.resource_request self)
    /\ (ResourceRequest.memory_bytes
          (PartitionTaskBuilder.resource_request self) = Some 0 ->
        ResourceRequest.memory_bytes
          (PartitionTask.resource_request
             (SingleOutputPartitionTask.base single)) = None)
    /\ (ResourceRequest.memory_bytes
          (PartitionTaskBuilder.resource_request self) <> Some 0 ->
        ResourceRequest.memory_bytes
          (PartitionTask.resource_request
             (SingleOutputPartitionTask.base single))
        = ResourceRequest.memory_bytes
            (PartitionTaskBuilder.resource_request self))
    /\ ResourceRequest.num_cpus
         (PartitionTask.resource_request
            (SingleOutputPartitionTask.base single))
       = ResourceRequest.num_cpus
           (PartitionTask.resource_request
              (MultiOutputPartitionTask.base multi))
    /\ ResourceRequest.num_gpus
         (PartitionTask.resource_request
            (SingleOutputPartitionTask.base single))
       = ResourceRequest.num_gpus
           (PartitionTask.resource_request
              (MultiOutputPartitionTask.base multi))
    /\ PartitionTask.inputs (SingleOutputPartitionTask.base single)
       = PartitionTask.inputs (MultiOutputPartitionTask.base multi)
    /\ PartitionTask.instructions (SingleOutputPartitionTask.base single)
       = PartitionTask.instructions (MultiOutputPartitionTask.base multi).
Proof.
  do 4 eexists. split; [reflexivity|]. split; [reflexivity|]. cbn.
  split; [done|]. split; [by intros ->|]. split; [|done].
  destruct (ResourceRequest.memory_bytes _) as [n|]; cbn; [|done].
  intros Hn. destruct (Z.eqb_spec n 0) as [->|]; done.
Qed.

(** ** Resource aggregation *)

Section MaxField.
Context {A : Type} (le : A -> A -> Prop) (max : A -> A -> A).
Hypothesis le_refl : forall x, le x x.
Hypothesis le_trans : forall x y z, le x y -> le y z -> le x z.
Hypothesis max_ub_l : forall x y, le x (max x y).
Hypothesis max_ub_r : forall x y, le y (max x y).
Hypothesis max_cases : forall x y, max x y = x \/ max x y = y.

Lemma max_field_absorb (a x : option A) (xs : list (option A))
    (m : option A) :
  is_max_of_present le (ResourceRequest.max_field max a x :: xs) m ->
  is_max_of_present le (a :: x :: xs) m.
Proof.
  destruct m as [v|]; cbn.
  - intros [Hin Hub]. split.
    + apply elem_of_cons in Hin as [Hv|Hin]; [|by do 2 right].
      destruct a as [a|], x as [x|]; cbn in Hv; [|rewrite Hv..|done].
      * destruct (max_cases a x) as [E|E]; rewrite E in Hv; rewrite Hv;
          [left|right; left].
      * left.
      * right; left.
    + intros y Hy.
      assert (exists z, Some z ∈ ResourceRequest.max_field max a x :: xs
                        /\ le y z) as (z & Hz & Hyz).
      { apply elem_of_cons in Hy as [<-|Hy].
        - destruct x as [x|]; cbn; eexists; (split; [left|]); eauto.
        - apply elem_of_cons in Hy as [<-|Hy].
          + destruct a as [a|]; cbn; eexists; (split; [left|]); eauto.
          + exists y. split; [by right|done]. }
      eauto.
  - intros Hnone.
    assert (ResourceRequest.max_field max a x = None) as Hax
      by (apply Hnone; left).
    intros y Hy.
    apply elem_of_cons in Hy as [->|Hy].
    { by destruct a, x. }
    apply elem_of_cons in Hy as [->|Hy].
    { by destruct a, x. }
    apply Hnone. by right.
Qed.

Lemma fold_max_field_is_max (xs : list (option A)) (a : option A) :
  is_max_of_present le (a :: xs)
    (fold_left (ResourceRequest.max_field max) xs a).
Proof.
  revert a. induction xs as [|x xs IH]; intros a; cbn [fold_left].
  - destruct a as [v|]; cbn.
    + split; [left|]. by intros x [= ->]%list_elem_of_singleton.
    + by intros x ->%list_elem_of_singleton.
  - apply max_field_absorb, IH.
Qed.
End MaxField.

Lemma Qmax_ub_l (x y : Q) : (x <= ResourceRequest.Qmax x y)%Q.
Proof.
  unfold ResourceRequest.Qmax. destruct (Qle_bool y x) eqn:E.
  - apply Qle_refl.
  - apply Qlt_le_weak, Qnot_le_lt. intros H%Qle_bool_iff. congruence.
Qed.

Lemma Qmax_ub_r (x y : Q) : (y <= ResourceRequest.Qmax x y)%Q.
Proof.
  unfold ResourceRequest.Qmax. destruct (Qle_bool y x) eqn:E.
  - by apply Qle_bool_iff.
  - apply Qle_refl.
Qed.

Lemma Qmax_cases (x y : Q) :
  ResourceRequest.Qmax x y = x \/ ResourceRequest.Qmax x y = y.
Proof. unfold ResourceRequest.Qmax. destruct (Qle_bool y x); auto. Qed.

Lemma max_of_empty_l (a : ResourceRequest.t) :
  ResourceRequest.max_of ResourceRequest.empty a = a.
Proof. by destruct a. Qed.

Lemma max_resources_cons (a : ResourceRequest.t)
    (l : list ResourceRequest.t) :
  ResourceRequest.max_resources (a :: l)
  = fold_left ResourceRequest.max_of l a.
Proof.
  unfold ResourceRequest.max_resources. cbn [fold_left].
  by rewrite max_of_empty_l.
Qed.

Lemma fold_max_of_fields (l : list ResourceRequest.t)
    (a : ResourceRequest.t) :
  ResourceRequest.num_cpus (fold_left ResourceRequest.max_of l a)
  = fold_left (ResourceRequest.max_field ResourceRequest.Qmax)
      (map ResourceRequest.num_cpus l) (ResourceRequest.num_cpus a)
  /\ ResourceRequest.num_gpus (fold_left ResourceRequest.max_of l a)
     = fold_left (ResourceRequest.max_field ResourceRequest.Qmax)
         (map ResourceRequest.num_gpus l) (ResourceRequest.num_gpus a)
  /\ ResourceRequest.memory_bytes (fold_left ResourceRequest.max_of l a)
     = fold_left (ResourceRequest.max_field Z.max)
         (map ResourceRequest.memory_bytes l)
         (ResourceRequest.memory_bytes a).
Proof.
  revert a. induction l as [|r l IH]; intros a; [done|].
  cbn [fold_left map]. apply (IH (ResourceRequest.max_of a r)).
Qed.

Lemma max_resources_is_fieldwise_max (a : ResourceRequest.t)
    (l : list ResourceRequest.t) :
  is_fieldwise_max (a :: l) (ResourceRequest.max_resources (a :: l)).
Proof.
  rewrite max_resources_cons.
  destruct (fold_max_of_fields l a) as (Hc & Hg & Hm).
  unfold is_fieldwise_max. rewrite Hc, Hg, Hm. cbn [map].
  split; [|split].
  - apply fold_max_field_is_max;
      eauto using Qle_refl, Qle_trans, Qmax_ub_l, Qmax_ub_r, Qmax_cases.
  - apply fold_max_field_is_max;
      eauto using Qle_refl, Qle_trans, Qmax_ub_l, Qmax_ub_r, Qmax_cases.
  - apply fold_max_field_is_max; intros; lia.
Qed.

Lemma add_instruction_Ok {PartitionT}
    (self self' : PartitionTaskBuilder.t PartitionT)
    (instruction : Instruction.t) (request : ResourceRequest.t)
    (w w' : World) :
  PartitionTaskBuilder.add_instruction self instruction request w
  = (Ok self', w') ->
  PartitionTaskBuilder.resource_request self'
  = ResourceRequest.max_of (PartitionTaskBuilder.resource_request self)
      request
  /\ PartitionTaskBuilder.instructions self'
     = PartitionTaskBuilder.instructions self
  /\ PartitionTaskBuilder.inputs self' = PartitionTaskBuilder.inputs self.
Proof.
  unfold PartitionTaskBuilder.add_instruction, mbind, M_bind, mret, M_ret,
    list_append, lift. cbn.
  destruct (Instruction.run_partial_metadata _ _) as [pms|e]; [|done].
  intros [= <- <-]. cbn. split; [|done].
  unfold ResourceRequest.max_resources. cbn. by rewrite max_of_empty_l.
Qed.

Lemma add_instructions_resource_request {PartitionT}
    (calls : list (Instruction.t * ResourceRequest.t))
    (self self' : PartitionTaskBuilder.t PartitionT) (w w' : World) :
  add_instructions self calls w = (Ok self', w') ->
  PartitionTaskBuilder.resource_request self'
  = ResourceRequest.max_resources
      (PartitionTaskBuilder.resource_request self :: map snd calls).
Proof.
  rewrite max_resources_cons.
  revert self w. induction calls as [|[instruction request] calls IH];
    intros self w; cbn [add_instructions map fold_left snd].
  - by intros [= <- <-].
  - unfold mbind, M_bind.
    destruct (PartitionTaskBuilder.add_instruction self instruction request w)
      as [[b|e] w1] eqn:Hadd; [|done].
    intros Hrest. apply IH in Hrest. rewrite Hrest.
    by apply add_instruction_Ok in Hadd as (-> & _ & _).
Qed.

(** C3, as the code has it.  When a run of [add_instruction] calls
    succeeds, the builder's request is the field-wise maximum (absent fields
    being the identity) of its initial request and the requests of the
    calls.  Either finalizer then gives the task that aggregate with
    [num_cpus] replaced by 1 when it is absent or zero; the single-output
    finalizer also replaces a [memory_bytes] of zero by absent. *)
Theorem C3_resource_request_aggregation
    {PartitionT MaterializedResult : Type}
    (self self' : PartitionTaskBuilder.t PartitionT)
    (calls : list (Instruction.t * ResourceRequest.t))
    (num_results : Z) (w w' : World) :
  add_instructions self calls w = (Ok self', w') ->
  exists agg single multi ws wm,
    is_fieldwise_max
      (PartitionTaskBuilder.resource_request self :: map snd calls) agg
    /\ PartitionTaskBuilder.finalize_partition_task_single_output
         (MaterializedResult := MaterializedResult) self' w'
       = (Ok single, ws)
    /\ PartitionTaskBuilder.finalize_partition_task_multi_output
         (MaterializedResult := MaterializedResult) self' num_results w'
       = (Ok multi, wm)
    /\ absent_or_zero_as_1 (ResourceRequest.num_cpus agg)
         (ResourceRequest.num_cpus
            (PartitionTask.resource_request
               (SingleOutputPartitionTask.base single)))
    /\ ResourceRequest.num_gpus
         (PartitionTask.resource_request
            (SingleOutputPartitionTask.base single))
       = ResourceRequest.num_gpus agg
    /\ zero_as_absent (ResourceRequest.memory_bytes agg)
         (ResourceRequest.memory_bytes
            (PartitionTask.resource_request
               (SingleOutputPartitionTask.base single)))
    /\ absent_or_zero_as_1 (ResourceRequest.num_cpus agg)
         (ResourceRequest.num_cpus
            (PartitionTask.resource_request
               (MultiOutputPartitionTask.base multi)))
    /\ ResourceRequest.num_gpus
         (PartitionTask.resource_request
            (MultiOutputPartitionTask.base multi))
       = ResourceRequest.num_gpus agg
    /\ ResourceRequest.memory_bytes
         (PartitionTask.resource_request
            (MultiOutputPartitionTask.base multi))
       = ResourceRequest.memory_bytes agg.
Proof.
  intros Hrun. apply add_instructions_resource_request in Hrun.
  exists (ResourceRequest.max_resources
            (PartitionTaskBuilder.resource_request self :: map snd calls)).
  do 4 eexists. split; [apply max_resources_is_fieldwise_max|].
  split; [reflexivity|]. split; [reflexivity|]. cbn. rewrite Hrun.
  assert (forall x, absent_or_zero_as_1 x (or_1 x)) as Hcpu.
  { intros [c|]; unfold absent_or_zero_as_1, or_1.
    - split; [done|]. split; intros c' [= <-] Hc.
      + apply Qeq_bool_iff in Hc. by rewrite Hc.
      + destruct (Qeq_bool c 0) eqn:E; [|done].
        by apply Qeq_bool_iff in E.
    - split; [done|]. split; intros c' [=]. }
  assert (forall x, zero_as_absent x (or_None x)) as Hmem.
  { intros [n|]; unfold zero_as_absent, or_None.
    - destruct (Z.eqb_spec n 0) as [->|Hn]; split; try done.
      intros [= ->]. done.
    - split; done. }
  repeat split; try apply Hcpu; try apply Hmem.
Qed.

Lemma C3_witness :
  match
    add_instructions gpu_and_memory_builder gpu_and_memory_calls
      gpu_and_memory_world
  with
  | (Ok self', w') =>
      exists agg single ws,
        is_fieldwise_max
          (PartitionTaskBuilder.resource_request gpu_and_memory_builder
             :: map snd gpu_and_memory_calls) agg
        /\ PartitionTaskBuilder.finalize_partition_task_single_output
             (MaterializedResult := string) self' w' = (Ok single, ws)
        /\ absent_or_zero_as_1 (ResourceRequest.num_cpus agg)
             (ResourceRequest.num_cpus
                (PartitionTask.resource_request
                   (SingleOutputPartitionTask.base single)))
        /\ ResourceRequest.num_gpus
             (PartitionTask.resource_request
                (SingleOutputPartitionTask.base single))
           = ResourceRequest.num_gpus agg
        /\ zero_as_absent (ResourceRequest.memory_bytes agg)
             (ResourceRequest.memory_bytes
                (PartitionTask.resource_request
                   (SingleOutputPartitionTask.base single)))
  | (Raise _, _) => False
  end.
Proof.
  destruct (add_instructions gpu_and_memory_builder gpu_and_memory_calls
              gpu_and_memory_world) as [[self'|e] w'] eqn:Hrun;
    [|vm_compute in Hrun; discriminate].
  destruct (C3_resource_request_aggregation
              (MaterializedResult := string)
              gpu_and_memory_builder self' gpu_and_memory_calls 1
              gpu_and_memory_world w' Hrun)
    as (agg & single & multi & ws & wm & Hmax & Hs & _ & Hc & Hg & Hm & _).
  exists agg, single, ws.
  split; [exact Hmax|]. split; [exact Hs|]. split; [exact Hc|].
  split; [exact Hg|exact Hm].
Defined.

(** The claim C3 as stated fails on zero quantities: a request for zero
    bytes of memory is dropped by the single-output finalizer, and a request
    for zero CPUs becomes a request for one CPU. *)
Lemma C3_zero_requests_are_replaced :
  (exists task w,
      single_output_scenario
        {| ResourceRequest.num_cpus := None;
           ResourceRequest.num_gpus := None;
           ResourceRequest.memory_bytes := Some 0 |} = (Ok task, w)
      /\ ResourceRequest.memory_bytes
           (PartitionTask.resource_request
              (SingleOutputPartitionTask.base task)) = None
      /\ ResourceRequest.memory_bytes
           (expected_resource_request
              (ResourceRequest.max_resources
                 [ ResourceRequest.empty;
                   {| ResourceRequest.num_cpus := None;
                      ResourceRequest.num_gpus := None;
                      ResourceRequest.memory_bytes := Some 0 |} ]))
         = Some 0)
  /\ (exists task w,
        single_output_scenario
          {| ResourceRequest.num_cpus := Some 0%Q;
             ResourceRequest.num_gpus := None;
             ResourceRequest.memory_bytes := None |} = (Ok task, w)
        /\ ResourceRequest.num_cpus
             (PartitionTask.resource_request
                (SingleOutputPartitionTask.base task)) = Some 1%Q
        /\ ResourceRequest.num_cpus
             (expected_resource_request
                (ResourceRequest.max_resources
                   [ ResourceRequest.empty;
                     {| ResourceRequest.num_cpus := Some 0%Q;
                        ResourceRequest.num_gpus := None;
                        ResourceRequest.memory_bytes := None |} ]))
           = Some 0%Q).
Proof. split; do 2 eexists; vm_compute; repeat split. Qed.

(** ** Freezing *)

(** C2, on the code.  The frozen task holds the very list object of the
    builder that made it: an [add_instruction] on that builder after the
    finalize appends to the frozen task's instruction list, also when the
    call then raises in the metadata rule. *)
Theorem C2_add_after_finalize_reaches_frozen_task {PartitionT}
    (b : PartitionTaskBuilder.t PartitionT) (instruction : Instruction.t)
    (request : ResourceRequest.t) (w : World)
    (before : list Instruction.t) :
  store w !! PartitionTaskBuilder.instructions b = Some before ->
  add_after_finalize b instruction request w
  = (before, before ++ [instruction]).
Proof.
  intros Hstore.
  unfold add_after_finalize,
    PartitionTaskBuilder.finalize_partition_task_single_output,
    PartitionTaskBuilder.add_instruction, mbind, M_bind, mret, M_ret,
    next_ID_GEN, list_append, lift, deref.
  cbn. rewrite Hstore. cbn. f_equal.
  destruct (Instruction.run_partial_metadata _ _); cbn;
    by rewrite lookup_alter_eq, Hstore.
Qed.

Lemma C2_witness :
  store gpu_and_memory_world
    !! PartitionTaskBuilder.instructions gpu_and_memory_builder = Some []
  /\ add_after_finalize gpu_and_memory_builder
       (Instruction.LocalLimit {| LocalLimit.limit := 10 |})
       ResourceRequest.empty gpu_and_memory_world
     = ([], [Instruction.LocalLimit {| LocalLimit.limit := 10 |}]).
Proof.
  split; [reflexivity|].
  apply (C2_add_after_finalize_reaches_frozen_task
           gpu_and_memory_builder
           (Instruction.LocalLimit {| LocalLimit.limit := 10 |})
           ResourceRequest.empty gpu_and_memory_world []).
  reflexivity.
Defined.

(** ** Task identifiers *)

Lemma str_inj (n m : N) : str n = str m -> n = m.
Proof.
  unfold str. intros H.
  apply (f_equal NilEmpty.uint_of_string) in H.
  rewrite !NilEmpty.usu in H. injection H as H.
  apply (f_equal N.of_uint) in H. by rewrite !Unsigned.of_to in H.
Qed.

Lemma Process_id_inj {PartitionT MaterializedResult}
    (t1 t2 : Process.Task PartitionT MaterializedResult) :
  Process.id t1 = Process.id t2 -> Process._id t1 = Process._id t2.
Proof.
  destruct t1 as [s1|m1], t2 as [s2|m2];
    unfold Process.id, Process._id, SingleOutputPartitionTask.id,
      MultiOutputPartitionTask.id, PartitionTask.id; cbn; intros H;
    try discriminate H.
  - apply str_inj. by simplify_eq.
  - apply str_inj. by simplify_eq.
Qed.

Section ProcessInvariant.
Context {PartitionT MaterializedResult : Type}.
Implicit Types p : Process.t PartitionT MaterializedResult.

Lemma numbered_start :
  numbered (Process.start (PartitionT := PartitionT)
                          (MaterializedResult := MaterializedResult)).
Proof. split; [done|]. intros k task Hk. cbn in Hk. by rewrite lookup_nil in Hk. Qed.

Lemma numbered_same_tasks p (w' : World) :
  ID_GEN w' = ID_GEN (Process.world p) ->
  numbered p ->
  numbered {| Process.world := w'; Process.tasks := Process.tasks p |}.
Proof. intros Hid [Hgen Hk]. split; cbn; [congruence|done]. Qed.

Lemma numbered_new_task p (w' : World)
    (task : Process.Task PartitionT MaterializedResult) :
  ID_GEN w' = N.succ (ID_GEN (Process.world p)) ->
  Process._id task = ID_GEN (Process.world p) ->
  numbered p ->
  numbered {| Process.world := w';
              Process.tasks := Process.tasks p ++ [task] |}.
Proof.
  intros Hw' Htask [Hgen Hk]. split; cbn.
  - rewrite Hw', Hgen, length_app. cbn. lia.
  - intros k task' Hlookup.
    apply lookup_app_Some in Hlookup as [Hold|[Hge Hnew]]; [by apply Hk|].
    apply list_lookup_singleton_Some in Hnew as [Hz <-].
    rewrite Htask, Hgen. f_equal. lia.
Qed.

Lemma numbered_update p (k : nat)
    (task task' : Process.Task PartitionT MaterializedResult) :
  Process.tasks p !! k = Some task ->
  Process._id task' = Process._id task ->
  numbered p ->
  numbered {| Process.world := Process.world p;
              Process.tasks := <[k := task']> (Process.tasks p) |}.
Proof.
  intros Hlookup Hid [Hgen Hk]. split; cbn.
  - by rewrite length_insert.
  - intros j task'' Hj.
    destruct (decide (k = j)) as [<-|Hne].
    + rewrite list_lookup_insert_eq in Hj by (by eapply lookup_lt_Some).
      injection Hj as <-. rewrite Hid. by apply Hk.
    + rewrite list_lookup_insert_ne in Hj by done. by apply Hk.
Qed.

Lemma numbered_step p p' : Process.step p p' -> numbered p -> numbered p'.
Proof.
  intros Hstep Hp. destruct Hstep as
    [inputs pms request r w' Hcall
    |b instruction request r w' Hcall
    |b task w' Hcall
    |b num_results task w' Hcall
    |k task result r task' Hk Hcall
    |k task result r task' Hk Hcall].
  - apply numbered_same_tasks; [|done].
    unfold PartitionTaskBuilder.__init__, mbind, M_bind, mret, M_ret,
      new_list in Hcall. cbn in Hcall. by injection Hcall as _ <-.
  - apply numbered_same_tasks; [|done].
    unfold PartitionTaskBuilder.add_instruction, mbind, M_bind, mret, M_ret,
      list_append, lift in Hcall. cbn in Hcall.
    destruct (Instruction.run_partial_metadata _ _);
      by injection Hcall as _ <-.
  - unfold PartitionTaskBuilder.finalize_partition_task_single_output,
      mbind, M_bind, mret, M_ret, next_ID_GEN in Hcall. cbn in Hcall.
    injection Hcall as <- <-. by apply numbered_new_task.
  - unfold PartitionTaskBuilder.finalize_partition_task_multi_output,
      mbind, M_bind, mret, M_ret, next_ID_GEN in Hcall. cbn in Hcall.
    injection Hcall as <- <-. by apply numbered_new_task.
  - eapply numbered_update; [done| |done].
    unfold SingleOutputPartitionTask.set_result in Hcall. cbn.
    destruct (SingleOutputPartitionTask._result task); [by injection Hcall as _ <-|].
    destruct (unpack1 result); by injection Hcall as _ <-.
  - eapply numbered_update; [done| |done].
    unfold MultiOutputPartitionTask.set_result in Hcall. cbn.
    destruct (MultiOutputPartitionTask._results task);
      by injection Hcall as _ <-.
Qed.

Lemma reachable_numbered p : Process.reachable p -> numbered p.
Proof.
  unfold Process.reachable. revert p.
  apply (rtc_ind_r (fun p => numbered p)).
  - apply numbered_start.
  - intros p1 p2 _ Hstep IH. by eapply numbered_step.
Qed.
End ProcessInvariant.

(** C9.  In whatever process the calls of the module reach, the tasks
    created so far carry the counter values in creation order: a task
    created earlier has a smaller [_id] than one created later, every [_id]
    is below the counter, and two distinct tasks have distinct [_id] values
    and distinct [id()] strings. *)
Theorem C9_task_ids_are_unique {PartitionT MaterializedResult : Type}
    (p : Process.t PartitionT MaterializedResult) (i j : nat)
    (ti tj : Process.Task PartitionT MaterializedResult) :
  Process.reachable p ->
  Process.tasks p !! i = Some ti ->
  Process.tasks p !! j = Some tj ->
  ((i < j)%nat -> (Process._id ti < Process._id tj)%N)
  /\ (Process._id ti < ID_GEN (Process.world p))%N
  /\ (i <> j ->
      Process._id ti <> Process._id tj /\ Process.id ti <> Process.id tj).
Proof.
  intros [Hgen Hnum]%reachable_numbered Hi Hj.
  pose proof (lookup_lt_Some _ _ _ Hi) as Hlen.
  apply Hnum in Hi, Hj.
  split; [rewrite Hi, Hj; lia|]. split; [rewrite Hi, Hgen; lia|].
  intros Hne.
  assert (Process._id ti <> Process._id tj) as Hids
    by (rewrite Hi, Hj; lia).
  split; [done|]. by intros Heq%Process_id_inj.
Qed.

Lemma two_tasks_process_reachable : Process.reachable two_tasks_process.
Proof.
  unfold Process.reachable, two_tasks_process.
  eapply rtc_r; [eapply rtc_r; [apply rtc_refl|]|].
  - by eapply Process.step_finalize_single.
  - by eapply Process.step_finalize_multi.
Defined.

Lemma C9_witness :
  exists ti tj,
    Process.tasks two_tasks_process !! 0%nat = Some ti
    /\ Process.tasks two_tasks_process !! 1%nat = Some tj
    /\ (Process._id ti < Process._id tj)%N
    /\ (Process._id ti < ID_GEN (Process.world two_tasks_process))%N
    /\ Process._id ti <> Process._id tj
    /\ Process.id ti <> Process.id tj.
Proof.
  do 2 eexists. split; [reflexivity|]. split; [reflexivity|].
  edestruct (C9_task_ids_are_unique two_tasks_process 0 1 _ _
               two_tasks_process_reachable eq_refl eq_refl)
    as (Hlt & Hbound & Hne).
  split; [apply Hlt; lia|]. split; [exact Hbound|].
  apply Hne. lia.
Defined.

(** ** The scenarios of the specification, evaluated *)

(** Limit propagation: 100 known rows, [LocalLimit(10)], then a
    single-output finalize with the CPU default. *)
Example limit_propagation :
  exists b w task w',
    PartitionTaskBuilder.add_instruction gpu_and_memory_builder
      (Instruction.LocalLimit {| LocalLimit.limit := 10 |})
      ResourceRequest.empty gpu_and_memory_world = (Ok b, w)
    /\ PartitionTaskBuilder.partial_metadatas b
       = [ {| num_rows := Some 10; size_bytes := None |} ]
    /\ PartitionTaskBuilder.finalize_partition_task_single_output
         (MaterializedResult := string) b w = (Ok task, w')
    /\ ResourceRequest.num_cpus
         (PartitionTask.resource_request
            (SingleOutputPartitionTask.base task)) = Some 1%Q.
Proof. do 4 eexists. vm_compute. repeat split. Qed.

(** Slice clamping: five rows, [Slice(3, 100)]. *)
Example slice_clamping :
  Slice.run {| Slice.start := 3; Slice.end_ := 100 |}
    [ ["r0"; "r1"; "r2"; "r3"; "r4"]%string ]
  = Ok [ ["r3"; "r4"]%string ]
  /\ Slice.run_partial_metadata {| Slice.start := 3; Slice.end_ := 100 |}
       [ {| num_rows := Some 5; size_bytes := None |} ]
     = Ok [ {| num_rows := Some 2; size_bytes := None |} ]
  /\ Slice.run_partial_metadata {| Slice.start := 3; Slice.end_ := 100 |}
       [ {| num_rows := None; size_bytes := None |} ]
     = Ok [ {| num_rows := None; size_bytes := None |} ].
Proof. vm_compute. repeat split. Qed.

(** A negative start is refused by both methods of [Slice]. *)
Example slice_negative_start :
  Slice.run {| Slice.start := -1; Slice.end_ := 2 |} [ ["r0"; "r1"]%string ]
  = Raise AssertionError
  /\ Slice.run_partial_metadata {| Slice.start := -1; Slice.end_ := 2 |}
       [ {| num_rows := Some 2; size_bytes := None |} ]
     = Raise AssertionError.
Proof. vm_compute. repeat split. Qed.

(** * Further properties of the code *)

(** ** The builder's pipeline *)

(** X1.  [PartitionTaskBuilder(...)] never fails.  The new builder's
    instruction list is a new object: its address was free before the call,
    it holds no instruction, and every list that existed before is left as it
    was.  The task counter is not touched, the inputs and the request are
    kept, and without [partial_metadatas] there is one entry per input, each
    with unknown rows and unknown size. *)
Theorem X1_init_builder_has_fresh_empty_pipeline {PartitionT}
    (inputs : list PartitionT)
    (partial_metadatas : option (list PartialPartitionMetadata))
    (request : ResourceRequest.t) (w : World) :
  exists b w',
    PartitionTaskBuilder.__init__ inputs partial_metadatas request w
    = (Ok b, w')
    /\ store w !! PartitionTaskBuilder.instructions b = None
    /\ store w' !! PartitionTaskBuilder.instructions b = Some []
    /\ (forall l xs, store w !! l = Some xs -> store w' !! l = Some xs)
    /\ ID_GEN w' = ID_GEN w
    /\ PartitionTaskBuilder.inputs b = inputs
    /\ PartitionTaskBuilder.resource_request b = request
    /\ (forall pms, partial_metadatas = Some pms ->
          PartitionTaskBuilder.partial_metadatas b = pms)
    /\ (partial_metadatas = None ->
          length (PartitionTaskBuilder.partial_metadatas b) = length inputs
          /\ forall m, m ∈ PartitionTaskBuilder.partial_metadatas b ->
               num_rows m = None /\ size_bytes m = None).
Proof.
  do 2 eexists. split; [reflexivity|]. cbn.
  assert (store w !! fresh (dom (store w)) = None) as Hfresh
    by apply not_elem_of_dom, is_fresh.
  split; [done|]. split; [by rewrite lookup_insert_eq|].
  split.
  { intros l xs Hl. rewrite lookup_insert_ne; [done|]. congruence. }
  split; [done|]. split; [done|]. split; [done|].
  split; [by intros pms ->|]. intros ->. split; [apply length_map|].
  intros m Hm. change (map ?f ?l) with (f <$> l) in Hm.
  apply list_elem_of_fmap in Hm as (x & -> & _). done.
Qed.

Lemma add_instruction_store {PartitionT}
    (self : PartitionTaskBuilder.t PartitionT)
    (instruction : Instruction.t) (request : ResourceRequest.t) (w : World) :
  snd (PartitionTaskBuilder.add_instruction self instruction request w)
  = {| ID_GEN := ID_GEN w;
       store := alter (fun xs => xs ++ [instruction])
                  (PartitionTaskBuilder.instructions self) (store w) |}.
Proof.
  unfold PartitionTaskBuilder.add_instruction, mbind, M_bind, mret, M_ret,
    list_append, lift. cbn.
  by destruct (Instruction.run_partial_metadata _ _).
Qed.

Lemma add_instruction_outcome {PartitionT}
    (self : PartitionTaskBuilder.t PartitionT)
    (instruction : Instruction.t) (request : ResourceRequest.t) (w : World) :
  fst (PartitionTaskBuilder.add_instruction self instruction request w)
  = match
      Instruction.run_partial_metadata instruction
        (PartitionTaskBuilder.partial_metadatas self)
    with
    | Ok pms =>
        Ok {| PartitionTaskBuilder.inputs := PartitionTaskBuilder.inputs self;
              PartitionTaskBuilder.partial_metadatas := pms;
              PartitionTaskBuilder.resource_request :=
                ResourceRequest.max_resources
                  [PartitionTaskBuilder.resource_request self; request];
              PartitionTaskBuilder.instructions :=
                PartitionTaskBuilder.instructions self |}
    | Raise e => Raise e
    end.
Proof.
  unfold PartitionTaskBuilder.add_instruction, mbind, M_bind, mret, M_ret,
    list_append, lift. cbn.
  by destruct (Instruction.run_partial_metadata _ _).
Qed.

(** X2.  [add_instruction] appends the instruction to the builder's list
    before it runs the metadata rule: when the rule raises, the call raises
    the same exception and the instruction is in the list all the same,
    while no other list and not the task counter is changed. *)
Theorem X2_failed_add_instruction_still_appends {PartitionT}
    (self : PartitionTaskBuilder.t PartitionT)
    (instruction : Instruction.t) (request : ResourceRequest.t) (w : World)
    (before : list Instruction.t) (e : exn) :
  store w !! PartitionTaskBuilder.instructions self = Some before ->
  Instruction.run_partial_metadata instruction
    (PartitionTaskBuilder.partial_metadatas self) = Raise e ->
  exists w',
    PartitionTaskBuilder.add_instruction self instruction request w
    = (Raise e, w')
    /\ store w' !! PartitionTaskBuilder.instructions self
       = Some (before ++ [instruction])
    /\ (forall l, l <> PartitionTaskBuilder.instructions self ->
          store w' !! l = store w !! l)
    /\ ID_GEN w' = ID_GEN w.
Proof.
  intros Hstore Hrule.
  pose proof (add_instruction_store self instruction request w) as Hw.
  pose proof (add_instruction_outcome self instruction request w) as Hr.
  rewrite Hrule in Hr.
  destruct (PartitionTaskBuilder.add_instruction self instruction request w)
    as [r w']. cbn in Hw, Hr. subst r w'.
  eexists. split; [reflexivity|]. cbn.
  split; [by rewrite lookup_alter_eq, Hstore|].
  split; [|done]. intros l Hl. by rewrite lookup_alter_ne.
Qed.

Lemma X2_witness :
  exists w',
    PartitionTaskBuilder.add_instruction
      {| PartitionTaskBuilder.inputs := ["p0"; "p1"]%string;
         PartitionTaskBuilder.partial_metadatas :=
           [ {| num_rows := None; size_bytes := None |};
             {| num_rows := None; size_bytes := None |} ];
         PartitionTaskBuilder.resource_request := ResourceRequest.empty;
         PartitionTaskBuilder.instructions := 0%nat |}
      (Instruction.Slice {| Slice.start := 0; Slice.end_ := 5 |})
      ResourceRequest.empty gpu_and_memory_world
    = (Raise ValueError, w')
    /\ store w' !! 0%nat
       = Some [Instruction.Slice {| Slice.start := 0; Slice.end_ := 5 |}].
Proof.
  destruct (X2_failed_add_instruction_still_appends
              {| PartitionTaskBuilder.inputs := ["p0"; "p1"]%string;
                 PartitionTaskBuilder.partial_metadatas :=
                   [ {| num_rows := None; size_bytes := None |};
                     {| num_rows := None; size_bytes := None |} ];
                 PartitionTaskBuilder.resource_request :=
                   ResourceRequest.empty;
                 PartitionTaskBuilder.instructions := 0%nat |}
              (Instruction.Slice {| Slice.start := 0; Slice.end_ := 5 |})
              ResourceRequest.empty gpu_and_memory_world [] ValueError
              eq_refl eq_refl)
    as (w' & Hcall & Hlist & _).
  exists w'. split; [exact Hcall|exact Hlist].
Defined.

Lemma add_instructions_pipeline {PartitionT}
    (calls : list (Instruction.t * ResourceRequest.t))
    (self self' : PartitionTaskBuilder.t PartitionT) (w w' : World)
    (before : list Instruction.t) :
  store w !! PartitionTaskBuilder.instructions self = Some before ->
  add_instructions self calls w = (Ok self', w') ->
  PartitionTaskBuilder.instructions self'
  = PartitionTaskBuilder.instructions self
  /\ PartitionTaskBuilder.inputs self' = PartitionTaskBuilder.inputs self
  /\ store w' !! PartitionTaskBuilder.instructions self
     = Some (before ++ map fst calls)
  /\ ID_GEN w' = ID_GEN w.
Proof.
  revert self w before.
  induction calls as [|[instruction request] calls IH];
    intros self w before Hstore; cbn [add_instructions map fst].
  - intros [= <- <-]. by rewrite app_nil_r.
  - unfold mbind, M_bind.
    pose proof (add_instruction_store self instruction request w) as Hw.
    destruct (PartitionTaskBuilder.add_instruction self instruction request w)
      as [[b|e] w1] eqn:Hadd; [|done].
    cbn in Hw. subst w1.
    apply add_instruction_Ok in Hadd as (_ & Hloc & Hin).
    intros Hrest.
    eapply (IH _ _ (before ++ [instruction])) in Hrest as (-> & -> & Hs & Hg).
    + rewrite Hloc in Hs. rewrite <- app_assoc in Hs. done.
    + cbn. by rewrite Hloc, lookup_alter_eq, Hstore.
Qed.

(** X3.  After a run of [add_instruction] calls that all return, the
    finalized task's pipeline is the builder's earlier pipeline followed by
    the instructions of the calls, in call order; its inputs are the
    builder's inputs. *)
Theorem X3_pipeline_keeps_call_order {PartitionT MaterializedResult : Type}
    (self self' : PartitionTaskBuilder.t PartitionT)
    (calls : list (Instruction.t * ResourceRequest.t)) (w w' : World)
    (before : list Instruction.t) :
  store w !! PartitionTaskBuilder.instructions self = Some before ->
  add_instructions self calls w = (Ok self', w') ->
  exists task w'',
    PartitionTaskBuilder.finalize_partition_task_single_output
      (MaterializedResult := MaterializedResult) self' w' = (Ok task, w'')
    /\ deref w''
         (PartitionTask.instructions (SingleOutputPartitionTask.base task))
       = before ++ map fst calls
    /\ PartitionTask.inputs (SingleOutputPartitionTask.base task)
       = PartitionTaskBuilder.inputs self
    /\ PartitionTask.num_results (SingleOutputPartitionTask.base task) = 1.
Proof.
  intros Hstore Hrun.
  destruct (add_instructions_pipeline _ _ _ _ _ _ Hstore Hrun)
    as (Hloc & Hin & Hs & _).
  do 2 eexists. split; [reflexivity|]. cbn. unfold deref. cbn.
  rewrite Hloc, Hs, Hin. done.
Qed.

Lemma X3_witness :
  match
    add_instructions gpu_and_memory_builder gpu_and_memory_calls
      gpu_and_memory_world
  with
  | (Ok self', w') =>
      exists task w'',
        PartitionTaskBuilder.finalize_partition_task_single_output
          (MaterializedResult := string) self' w' = (Ok task, w'')
        /\ deref w''
             (PartitionTask.instructions
                (SingleOutputPartitionTask.base task))
           = [] ++ map fst gpu_and_memory_calls
  | (Raise _, _) => False
  end.
Proof.
  destruct (add_instructions gpu_and_memory_builder gpu_and_memory_calls
              gpu_and_memory_world) as [[self'|e] w'] eqn:Hrun;
    [|vm_compute in Hrun; discriminate].
  destruct (X3_pipeline_keeps_call_order
              (MaterializedResult := string)
              gpu_and_memory_builder self' gpu_and_memory_calls
              gpu_and_memory_world w' [] eq_refl Hrun)
    as (task & w'' & Hfin & Hlist & _).
  exists task, w''. split; [exact Hfin|exact Hlist].
Defined.

(** X4.  Which [add_instruction] calls can raise.  For [ReadFile] and
    [WriteFile] the call returns exactly when the builder holds exactly one
    metadata entry; for [Slice] exactly when it holds exactly one entry and
    the start is not negative; for every other instruction it always
    returns. *)
Theorem X4_add_instruction_returns_iff {PartitionT}
    (self : PartitionTaskBuilder.t PartitionT)
    (instruction : Instruction.t) (request : ResourceRequest.t) (w : World) :
  (exists b, fst (PartitionTaskBuilder.add_instruction self instruction
                    request w) = Ok b)
  <->
  match instruction with
  | Instruction.ReadFile _ | Instruction.WriteFile _ =>
      length (PartitionTaskBuilder.partial_metadatas self) = 1%nat
  | Instruction.Slice s =>
      length (PartitionTaskBuilder.partial_metadatas self) = 1%nat
      /\ 0 <= Slice.start s
  | _ => True
  end.
Proof.
  rewrite add_instruction_outcome.
  destruct instruction as [r|wf| | | |l|s| |sa| | | | |q|f seed|f|f]; cbn;
    try (split; [done|intros _; eauto]).
  - unfold ReadFile.run_partial_metadata. case_bool_decide as Hlen.
    + split; [done|eauto].
    + split; [by intros [b [=]]|done].
  - unfold WriteFile.run_partial_metadata. case_bool_decide as Hlen.
    + split; [done|eauto].
    + split; [by intros [b [=]]|done].
  - unfold Slice.run_partial_metadata.
    destruct (PartitionTaskBuilder.partial_metadatas self)
      as [|m [|m' ms]]; cbn.
    + split; [by intros [b [=]]|by intros [[=] _]].
    + case_bool_decide as Hstart.
      * split; [intros _; split; [done|lia]|eauto].
      * split; [by intros [b [=]]|intros [_ H]; lia].
    + split; [by intros [b [=]]|by intros [[=] _]].
Qed.

(** ** More on the metadata rules *)

(** X5.  Two limits in a row propagate like the smaller limit alone. *)
Theorem X5_LocalLimit_twice_is_the_smaller_limit
    (k1 k2 : Z) (input_metadatas : list PartialPartitionMetadata) :
  LocalLimit.run_partial_metadata {| LocalLimit.limit := k2 |}
    (LocalLimit.run_partial_metadata {| LocalLimit.limit := k1 |}
       input_metadatas)
  = LocalLimit.run_partial_metadata {| LocalLimit.limit := Z.min k1 k2 |}
      input_metadatas.
Proof.
  unfold LocalLimit.run_partial_metadata. rewrite map_map.
  apply map_ext. intros [[r|] size]; cbn; [|done].
  do 2 f_equal. lia.
Qed.

(** X6.  A limit or a slice never reports more rows than it was given.
    [LocalLimit(k)] on [r] known rows reports at most [r] and at most [k]
    rows (a negative [k] is reported as it is).  [Slice(s, e)] with
    [s >= 0] on [r >= 0] known rows reports between 0 and [r] rows, and at
    most [e - s] rows when that is not negative. *)
Theorem X6_limit_and_slice_never_add_rows (k s e r : Z) (size : option Z) :
  0 <= s -> 0 <= r ->
  (exists n,
      LocalLimit.run_partial_metadata {| LocalLimit.limit := k |}
        [ {| num_rows := Some r; size_bytes := size |} ]
      = [ {| num_rows := Some n; size_bytes := None |} ]
      /\ n <= r /\ n <= k /\ (0 <= k -> 0 <= n))
  /\ (exists n,
        Slice.run_partial_metadata {| Slice.start := s; Slice.end_ := e |}
          [ {| num_rows := Some r; size_bytes := size |} ]
        = Ok [ {| num_rows := Some n; size_bytes := None |} ]
        /\ 0 <= n <= r /\ (0 <= e - s -> n <= e - s)).
Proof.
  intros Hs Hr. split.
  - eexists. split; [reflexivity|]. cbn. lia.
  - unfold Slice.run_partial_metadata. cbn.
    rewrite bool_decide_true by lia.
    eexists. split; [reflexivity|]. cbn. lia.
Qed.

Lemma X6_witness :
  (exists n,
      LocalLimit.run_partial_metadata {| LocalLimit.limit := 10 |}
        [ {| num_rows := Some 100; size_bytes := Some 4096 |} ]
      = [ {| num_rows := Some n; size_bytes := None |} ]
      /\ n <= 100 /\ n <= 10 /\ (0 <= 10 -> 0 <= n))
  /\ (exists n,
        Slice.run_partial_metadata {| Slice.start := 3; Slice.end_ := 7 |}
          [ {| num_rows := Some 100; size_bytes := Some 4096 |} ]
        = Ok [ {| num_rows := Some n; size_bytes := None |} ]
        /\ 0 <= n <= 100 /\ (0 <= 7 - 3 -> n <= 7 - 3)).
Proof.
  apply (X6_limit_and_slice_never_add_rows 10 3 7 100 (Some 4096)); lia.
Defined.

(** X7.  How many entries a metadata rule returns.  A fan-out returns
    [num_outputs] entries (none when [num_outputs] is negative), all
    unknown, whatever it is given; [Join] and the three reduces return
    exactly one entry whatever they are given, also on no entry at all; the
    one-to-one rules return one entry per entry given. *)
Theorem X7_metadata_rule_arity
    (instruction : Instruction.t)
    (input_metadatas output : list PartialPartitionMetadata) :
  Instruction.run_partial_metadata instruction input_metadatas = Ok output ->
  match instruction with
  | Instruction.FanoutRandom f _ | Instruction.FanoutHash f
  | Instruction.FanoutRange f =>
      Z.of_nat (length output) = Z.max 0 (FanoutInstruction.num_outputs f)
      /\ forall m, m ∈ output -> num_rows m = None /\ size_bytes m = None
  | Instruction.Join | Instruction.ReduceMerge
  | Instruction.ReduceMergeAndSort | Instruction.ReduceToQuantiles _ =>
      length output = 1%nat
  | Instruction.ReadFile _ | Instruction.WriteFile _ | Instruction.Slice _ =>
      length output = 1%nat /\ length input_metadatas = 1%nat
  | _ => length output = length input_metadatas
  end.
Proof.
  destruct instruction as [r|wf| | | |l|s| |sa| | | | |q|f seed|f|f]; cbn;
    try (intros [= <-]; unfold cannot_derive; by rewrite ?length_map).
  all: try (intros [= <-]; unfold FanoutInstruction.run_partial_metadata;
            split; [rewrite repeat_length; lia|];
            intros m Hm; apply list_elem_of_In, repeat_spec in Hm;
            by subst m).
  - unfold ReadFile.run_partial_metadata. case_bool_decide; [|done].
    by intros [= <-].
  - unfold WriteFile.run_partial_metadata. case_bool_decide; [|done].
    by intros [= <-].
  - unfold Project.run_partial_metadata. intros [= <-]. apply length_map.
  - unfold LocalCount.run_partial_metadata. intros [= <-]. apply length_map.
  - unfold LocalLimit.run_partial_metadata. intros [= <-]. apply length_map.
  - unfold Slice.run_partial_metadata.
    destruct input_metadatas as [|m [|m' ms]]; cbn; try done.
    case_bool_decide; [|done]. by intros [= <-].
Qed.

Lemma X7_witness :
  Z.of_nat
    (length (FanoutInstruction.run_partial_metadata
               {| FanoutInstruction.num_outputs := 4 |}
               [ {| num_rows := Some 7; size_bytes := None |} ]))
  = Z.max 0 4.
Proof.
  apply (X7_metadata_rule_arity
           (Instruction.FanoutHash {| FanoutInstruction.num_outputs := 4 |})
           [ {| num_rows := Some 7; size_bytes := None |} ]
           (FanoutInstruction.run_partial_metadata
              {| FanoutInstruction.num_outputs := 4 |}
              [ {| num_rows := Some 7; size_bytes := None |} ])
           eq_refl).
Defined.

(** ** More on running [Slice] *)


(** X9.  A slice from 0 whose end is at or past the end of the table
    returns the table itself. *)
Theorem X9_Slice_over_whole_table_is_identity {Row : Type}
    (e : Z) (t : Table.t Row) :
  Table.len t <= e ->
  Slice.run {| Slice.start := 0; Slice.end_ := e |} [t] = Ok [t].
Proof.
  intros He.
  rewrite Slice_run_Ok;
    [|unfold int64_max; lia|unfold Table.len, int64_min in *; lia].
  change (Z.to_nat 0) with 0%nat. rewrite drop_0.
  rewrite take_ge; [done|]. unfold Table.len in *. lia.
Qed.

Lemma X9_witness :
  Table.len ["r0"; "r1"; "r2"]%string <= 3
  /\ Slice.run {| Slice.start := 0; Slice.end_ := 3 |}
       [ ["r0"; "r1"; "r2"]%string ]
     = Ok [ ["r0"; "r1"; "r2"]%string ].
Proof.
  split; [vm_compute; discriminate|].
  apply (X9_Slice_over_whole_table_is_identity 3
           ["r0"; "r1"; "r2"]%string).
  vm_compute; discriminate.
Defined.





(** ** Reading the results of a task *)

(** X12.  What [set_result] installs on a single-output task is what the
    read accessors return: after a successful [set_result(result)] the list
    was [[r]], and [partition()], [partition_metadata()] and [vpartition()]
    return those of [r], and [cancel()] is forwarded to [r]; before the call
    each accessor raised the assertion error and [cancel()] reached
    nothing. *)
Theorem X12_single_output_reads_what_was_set
    {PartitionT MaterializedResult TableT MetadataT : Type}
    `{!MaterializedResult.Protocol MaterializedResult PartitionT
         TableT MetadataT}
    (self self' : SingleOutputPartitionTask.t PartitionT MaterializedResult)
    (result : list MaterializedResult) :
  SingleOutputPartitionTask.set_result self result = (Ok tt, self') ->
  exists r,
    result = [r]
    /\ SingleOutputPartitionTaskReads.partition self'
       = Ok (MaterializedResult.partition r)
    /\ SingleOutputPartitionTaskReads.partition_metadata self'
       = Ok (MaterializedResult.metadata r)
    /\ SingleOutputPartitionTaskReads.vpartition self'
       = Ok (MaterializedResult.vpartition r)
    /\ SingleOutputPartitionTaskReads.cancel self' = [r]
    /\ SingleOutputPartitionTaskReads.partition self = Raise AssertionError
    /\ SingleOutputPartitionTaskReads.partition_metadata self
       = Raise AssertionError
    /\ SingleOutputPartitionTaskReads.vpartition self = Raise AssertionError
    /\ SingleOutputPartitionTaskReads.cancel self = [].
Proof.
  intros (Hpending & r & -> & ->)%Single_set_result_Ok.
  exists r.
  unfold SingleOutputPartitionTaskReads.partition,
    SingleOutputPartitionTaskReads.partition_metadata,
    SingleOutputPartitionTaskReads.vpartition,
    SingleOutputPartitionTaskReads.cancel.
  rewrite Hpending. cbn. done.
Qed.

Lemma X12_witness :
  SingleOutputPartitionTaskReads.partition (H := plain_results)
    (snd (SingleOutputPartitionTask.set_result pending_single_task
            ["r0"%string]))
  = Ok "r0"%string.
Proof.
  destruct (X12_single_output_reads_what_was_set (H := plain_results)
              pending_single_task
              (snd (SingleOutputPartitionTask.set_result pending_single_task
                      ["r0"%string]))
              ["r0"%string] eq_refl)
    as (r & Hr & Hpartition & _).
  injection Hr as <-. exact Hpartition.
Defined.

Lemma getitem_nonneg {A} (xs : list A) (k : nat) (x : A) :
  xs !! k = Some x -> getitem xs (Z.of_nat k) = Ok x.
Proof.
  intros Hk. pose proof (lookup_lt_Some _ _ _ Hk) as Hlt.
  unfold getitem. replace (Z.of_nat k <? 0) with false by lia.
  rewrite bool_decide_true by lia. by rewrite Nat2Z.id, Hk.
Qed.

Lemma getitem_negative {A} (xs : list A) (k : nat) (x : A) :
  xs !! k = Some x ->
  getitem xs (Z.of_nat k - Z.of_nat (length xs)) = Ok x.
Proof.
  intros Hk. pose proof (lookup_lt_Some _ _ _ Hk) as Hlt.
  unfold getitem.
  replace (Z.of_nat k - Z.of_nat (length xs) <? 0) with true by lia.
  rewrite bool_decide_true by lia.
  replace (Z.to_nat (Z.of_nat k - Z.of_nat (length xs)
                     + Z.of_nat (length xs))) with k by lia.
  by rewrite Hk.
Qed.

Lemma getitem_out_of_range {A} (xs : list A) (index : Z) :
  index < - Z.of_nat (length xs) \/ Z.of_nat (length xs) <= index ->
  getitem xs index = Raise IndexError.
Proof.
  intros Hout. unfold getitem.
  destruct (index <? 0) eqn:Hneg; rewrite bool_decide_false; try done; lia.
Qed.

(** X13.  What [set_result] installs on a multi-output task is what the
    read accessors return, position by position: [partitions()] and
    [partition_metadatas()] return those of the results in the order of the
    list, as many as the list has (whatever [num_results] is), and
    [cancel()] is forwarded to each.  [vpartition(k)] is the table of the
    k-th result, counted from 0; a negative index counts from the end; an
    index outside the list raises an index error. *)
Theorem X13_multi_output_reads_what_was_set
    {PartitionT MaterializedResult TableT MetadataT : Type}
    `{!MaterializedResult.Protocol MaterializedResult PartitionT
         TableT MetadataT}
    (self self' : MultiOutputPartitionTask.t PartitionT MaterializedResult)
    (result : list MaterializedResult) :
  MultiOutputPartitionTask.set_result self result = (Ok tt, self') ->
  MultiOutputPartitionTaskReads.partitions self'
  = Ok (map MaterializedResult.partition result)
  /\ MultiOutputPartitionTaskReads.partition_metadatas self'
     = Ok (map MaterializedResult.metadata result)
  /\ MultiOutputPartitionTaskReads.cancel self' = result
  /\ (forall (k : nat) r, result !! k = Some r ->
        MultiOutputPartitionTaskReads.vpartition self' (Z.of_nat k)
        = Ok (MaterializedResult.vpartition r)
        /\ MultiOutputPartitionTaskReads.vpartition self'
             (Z.of_nat k - Z.of_nat (length result))
           = Ok (MaterializedResult.vpartition r))
  /\ (forall index,
        index < - Z.of_nat (length result)
        \/ Z.of_nat (length result) <= index ->
        MultiOutputPartitionTaskReads.vpartition self' index
        = Raise IndexError)
  /\ MultiOutputPartitionTaskReads.partitions self = Raise AssertionError
  /\ (forall index,
        MultiOutputPartitionTaskReads.vpartition self index
        = Raise AssertionError).
Proof.
  intros (Hpending & ->)%Multi_set_result_Ok.
  unfold MultiOutputPartitionTaskReads.partitions,
    MultiOutputPartitionTaskReads.partition_metadatas,
    MultiOutputPartitionTaskReads.vpartition,
    MultiOutputPartitionTaskReads.cancel.
  rewrite Hpending. cbn.
  split; [done|]. split; [done|]. split; [done|]. split; [|split; [|done]].
  - intros k r Hk.
    by rewrite (getitem_nonneg _ _ _ Hk), (getitem_negative _ _ _ Hk).
  - intros index Hout. by rewrite getitem_out_of_range.
Qed.

Lemma X13_witness :
  MultiOutputPartitionTaskReads.partitions (H := plain_results)
    (snd (MultiOutputPartitionTask.set_result pending_multi_task
            ["r0"; "r1"; "r2"]%string))
  = Ok ["r0"; "r1"; "r2"]%string.
Proof.
  destruct (X13_multi_output_reads_what_was_set (H := plain_results)
              pending_multi_task
              (snd (MultiOutputPartitionTask.set_result pending_multi_task
                      ["r0"; "r1"; "r2"]%string))
              ["r0"; "r1"; "r2"]%string eq_refl)
    as (Hpartitions & _).
  exact Hpartitions.
Defined.

(** ** What a process keeps *)

(** X14.  Task identifiers have no gaps.  In every reachable process the
    counter equals the number of tasks created so far and the k-th task
    created, counted from 0, has [_id] k: only the finalizers draw from
    [ID_GEN], each exactly once. *)
Theorem X14_task_ids_count_the_tasks {PartitionT MaterializedResult : Type}
    (p : Process.t PartitionT MaterializedResult) :
  Process.reachable p ->
  ID_GEN (Process.world p) = N.of_nat (length (Process.tasks p))
  /\ forall k task, Process.tasks p !! k = Some task ->
       Process._id task = N.of_nat k.
Proof. apply reachable_numbered. Qed.

Lemma X14_witness :
  ID_GEN (Process.world two_tasks_process)
  = N.of_nat (length (Process.tasks two_tasks_process)).
Proof.
  apply (X14_task_ids_count_the_tasks two_tasks_process
           two_tasks_process_reachable).
Defined.

Lemma step_keeps_task {PartitionT MaterializedResult}
    (p p' : Process.t PartitionT MaterializedResult) (k : nat)
    (task : Process.Task PartitionT MaterializedResult) :
  Process.step p p' ->
  Process.tasks p !! k = Some task ->
  exists task',
    Process.tasks p' !! k = Some task'
    /\ Task_base task' = Task_base task
    /\ (Task_done task = true -> task' = task).
Proof.
  intros Hstep Hk. destruct Hstep as
    [inputs pms request r w' Hcall
    |b instruction request r w' Hcall
    |b created w' Hcall
    |b num_results created w' Hcall
    |j old result r new Hj Hcall
    |j old result r new Hj Hcall]; cbn.
  - eauto.
  - eauto.
  - exists task. split; [by apply lookup_app_l_Some|done].
  - exists task. split; [by apply lookup_app_l_Some|done].
  - destruct (decide (j = k)) as [->|Hne].
    + rewrite list_lookup_insert_eq by (by eapply lookup_lt_Some).
      eexists. split; [done|]. rewrite Hk in Hj. injection Hj as ->.
      unfold SingleOutputPartitionTask.set_result in Hcall. cbn.
      unfold SingleOutputPartitionTask.done.
      destruct (SingleOutputPartitionTask._result old).
      * by injection Hcall as _ <-.
      * destruct (unpack1 result); by injection Hcall as _ <-.
    + rewrite list_lookup_insert_ne by done. eauto.
  - destruct (decide (j = k)) as [->|Hne].
    + rewrite list_lookup_insert_eq by (by eapply lookup_lt_Some).
      eexists. split; [done|]. rewrite Hk in Hj. injection Hj as ->.
      unfold MultiOutputPartitionTask.set_result in Hcall. cbn.
      unfold MultiOutputPartitionTask.done.
      destruct (MultiOutputPartitionTask._results old);
        by injection Hcall as _ <-.
    + rewrite list_lookup_insert_ne by done. eauto.
Qed.

(** X15.  A task, once created, stays.  Whatever calls follow, the task
    keeps its place among the process's tasks and its frozen fields
    (inputs, the instruction list object, resource request, number of
    results and [_id]); and once it is done it never changes again: an
    installed result is never replaced or removed. *)
Theorem X15_tasks_stay_and_results_are_final
    {PartitionT MaterializedResult : Type}
    (p p' : Process.t PartitionT MaterializedResult) (k : nat)
    (task : Process.Task PartitionT MaterializedResult) :
  rtc Process.step p p' ->
  Process.tasks p !! k = Some task ->
  exists task',
    Process.tasks p' !! k = Some task'
    /\ Task_base task' = Task_base task
    /\ (Task_done task = true -> task' = task).
Proof.
  intros Hsteps. revert task.
  induction Hsteps as [p|p p1 p' Hstep _ IH]; intros task Hk; [eauto|].
  destruct (step_keeps_task _ _ _ _ Hstep Hk) as (t1 & Hk1 & Hbase1 & Hdone1).
  destruct (IH _ Hk1) as (t' & Hk' & Hbase' & Hdone').
  exists t'. split; [done|]. split; [congruence|].
  intros Hdone. specialize (Hdone1 Hdone). subst t1. by apply Hdone'.
Qed.

Lemma X15_witness :
  exists task',
    Process.tasks two_tasks_process !! 0%nat = Some task'
    /\ Task_base task'
       = Task_base
           (Process.Single
              {| SingleOutputPartitionTask.base :=
                   {| PartitionTask.inputs := ["p0"%string];
                      PartitionTask.instructions := 0%nat;
                      PartitionTask.resource_request :=
                        {| ResourceRequest.num_cpus := Some 1%Q;
                           ResourceRequest.num_gpus := None;
                           ResourceRequest.memory_bytes := None |};
                      PartitionTask.num_results := 1;
                      PartitionTask._id := 0%N |};
                 SingleOutputPartitionTask._result := @None string |}).
Proof.
  destruct (X15_tasks_stay_and_results_are_final
              (after_finalize_single Process.start gpu_and_memory_builder)
              two_tasks_process 0 _
              (rtc_once _ _
                 (Process.step_finalize_multi _ gpu_and_memory_builder 4
                    _ _ eq_refl))
              eq_refl)
    as (task' & Hk & Hbase & _).
  exists task'. split; [exact Hk|exact Hbase].
Defined.

Lemma step_store_grows {PartitionT MaterializedResult}
    (p p' : Process.t PartitionT MaterializedResult) (l : loc)
    (xs : list Instruction.t) :
  Process.step p p' ->
  store (Process.world p) !! l = Some xs ->
  exists ys, store (Process.world p') !! l = Some (xs ++ ys).
Proof.
  intros Hstep Hl. destruct Hstep as
    [inputs pms request r w' Hcall
    |b instruction request r w' Hcall
    |b created w' Hcall
    |b num_results created w' Hcall
    |j old result r new Hj Hcall
    |j old result r new Hj Hcall]; cbn.
  - exists []. rewrite app_nil_r.
    unfold PartitionTaskBuilder.__init__, mbind, M_bind, mret, M_ret,
      new_list in Hcall. cbn in Hcall. injection Hcall as _ <-. cbn.
    rewrite lookup_insert_ne; [done|].
    intros Heq. pose proof (is_fresh (dom (store (Process.world p)))) as Hf.
    apply not_elem_of_dom in Hf. congruence.
  - pose proof (add_instruction_store b instruction request (Process.world p))
      as Hw. rewrite Hcall in Hw. cbn in Hw. subst w'. cbn.
    destruct (decide (PartitionTaskBuilder.instructions b = l)) as [<-|Hne].
    + exists [instruction]. by rewrite lookup_alter_eq, Hl.
    + exists []. by rewrite app_nil_r, lookup_alter_ne.
  - exists []. rewrite app_nil_r.
    unfold PartitionTaskBuilder.finalize_partition_task_single_output,
      mbind, M_bind, mret, M_ret, next_ID_GEN in Hcall. cbn in Hcall.
    by injection Hcall as _ <-.
  - exists []. rewrite app_nil_r.
    unfold PartitionTaskBuilder.finalize_partition_task_multi_output,
      mbind, M_bind, mret, M_ret, next_ID_GEN in Hcall. cbn in Hcall.
    by injection Hcall as _ <-.
  - exists []. by rewrite app_nil_r.
  - exists []. by rewrite app_nil_r.
Qed.

(** X16.  Pipelines are append-only.  Whatever calls follow, an instruction
    list that exists keeps the instructions it has, in their order, at the
    front: instructions are only ever appended, never removed, replaced or
    reordered, and no list is ever dropped or reused for a new builder. *)
Theorem X16_instruction_lists_only_grow
    {PartitionT MaterializedResult : Type}
    (p p' : Process.t PartitionT MaterializedResult) (l : loc)
    (xs : list Instruction.t) :
  rtc Process.step p p' ->
  store (Process.world p) !! l = Some xs ->
  exists ys, store (Process.world p') !! l = Some (xs ++ ys).
Proof.
  intros Hsteps. revert xs.
  induction Hsteps as [p|p p1 p' Hstep _ IH]; intros xs Hl.
  - exists []. by rewrite app_nil_r.
  - destruct (step_store_grows _ _ _ _ Hstep Hl) as (ys1 & Hl1).
    destruct (IH _ Hl1) as (ys & Hl').
    exists (ys1 ++ ys). by rewrite app_assoc.
Qed.

Lemma X16_witness :
  exists ys,
    store
      (snd (PartitionTaskBuilder.add_instruction gpu_and_memory_builder
              (Instruction.LocalLimit {| LocalLimit.limit := 10 |})
              ResourceRequest.empty gpu_and_memory_world))
      !! 0%nat = Some ([] ++ ys).
Proof.
  apply (X16_instruction_lists_only_grow
           (PartitionT := string) (MaterializedResult := string)
           {| Process.world := gpu_and_memory_world; Process.tasks := [] |}
           {| Process.world :=
                snd (PartitionTaskBuilder.add_instruction
                       gpu_and_memory_builder
                       (Instruction.LocalLimit {| LocalLimit.limit := 10 |})
                       ResourceRequest.empty gpu_and_memory_world);
              Process.tasks := [] |}
           0%nat []
           (rtc_once _ _
              (Process.step_add_instruction
                 {| Process.world := gpu_and_memory_world;
                    Process.tasks := [] |}
                 gpu_and_memory_builder
                 (Instruction.LocalLimit {| LocalLimit.limit := 10 |})
                 ResourceRequest.empty _ _ eq_refl))
           eq_refl).
Defined.

(** An end below the smallest [int64] makes [run] raise, although the
    window is empty. *)
Example slice_end_outside_int64 :
  Slice.run {| Slice.start := 0; Slice.end_ := -9223372036854775809 |}
    [ ["r0"; "r1"]%string ]
  = Raise OutOfInt64
  /\ Slice.run_partial_metadata
       {| Slice.start := 0; Slice.end_ := -9223372036854775809 |}
       [ {| num_rows := Some 2; size_bytes := None |} ]
     = Ok [ {| num_rows := Some 0; size_bytes := None |} ].
Proof. vm_compute. repeat split. Qed.
